(** * ChameleonRT viewer: a shallow embedding of [main.cpp]

    The program is application glue around SDL2, OpenGL, Dear ImGui,
    tinyobjloader and OSPRay.  The embedding keeps the control flow of
    [main] and [run_app] and records every effectful library call, in
    program order, in a trace.  Values the libraries return to the program
    (return codes, the parsed model, polled events, the mapped frame-buffer
    pointer) come from an [environment]; the UI overlay, the arcball camera
    and binary32 arithmetic are interfaces the program is parametric in. *)

From Stdlib Require Import ZArith List String Ascii Bool Lia QArith.
From Stdlib Require Import DecimalString.
Import ListNotations.

Local Open Scope string_scope.
Local Open Scope list_scope.
Local Open Scope Z_scope.

(** [s +++ t] is the text of [s] followed by the text of [t], as a chain of
    [<<] on one stream writes it. *)
Infix "+++" := String.append (right associativity, at level 60).

(** Splits on the condition of every [if] of the goal. *)
Ltac case_ifs :=
  repeat match goal with
         | |- context [if ?b then _ else _] => destruct b
         end.

(** ** Data *)

(** A C++ [float] is carried as its IEEE-754 binary32 bit pattern. *)
Definition f32 := Z.

(** The rational value of a positive normal binary32 pattern. *)
Definition f32_value (bits : f32) : Q :=
  let e := Z.shiftr bits 23 in
  let m := Z.land bits (2 ^ 23 - 1) + 2 ^ 23 in
  if e - 150 >=? 0
  then inject_Z (m * 2 ^ (e - 150))
  else Qmake m (Z.to_pos (2 ^ (150 - e))).

(** The float literals of [main.cpp]. *)
Definition lit_0_016f : f32 := 0x3C83126F.
Definition lit_100f : f32 := 0x42C80000.
Definition lit_65f : f32 := 0x42820000.
Definition lit_1000f : f32 := 0x447A0000.
Definition lit_0f : f32 := 0.
(** [1280.f / 720.f], both operands exact, quotient rounded to nearest. *)
Definition lit_1280f_div_720f : f32 := 0x3FE38E39.

Record vec3 := mk_vec3 { vx : f32; vy : f32; vz : f32 }.

(** [SDL_Event] is a C union discriminated by [type]; the program reads
    [key.keysym.sym] only under [SDL_KEYDOWN] and [window.event],
    [window.windowID] only under [SDL_WINDOWEVENT], so a record of the
    fields it reads is a faithful view.  [payload] stands for the rest of
    the union (pointer coordinates, wheel deltas, ...), which the program
    only passes on. *)
Record SDL_Event := mk_event {
  type : Z;
  key_keysym_sym : Z;
  window_event : Z;
  window_windowID : Z;
  payload : list Z
}.

(** Constants of the SDL2 headers. *)
Definition SDL_QUIT : Z := 0x100.
Definition SDL_WINDOWEVENT : Z := 0x200.
Definition SDL_KEYDOWN : Z := 0x300.
Definition SDL_MOUSEMOTION : Z := 0x400.
Definition SDL_MOUSEWHEEL : Z := 0x403.
Definition SDLK_ESCAPE : Z := 27.
Definition SDL_WINDOWEVENT_RESIZED : Z := 5.
Definition SDL_WINDOWEVENT_CLOSE : Z := 14.

(** Constants of [gl_core_4_5.h] and [ospray.h]. *)
Definition ogl_LOAD_FAILED : Z := 0.
Definition OSP_NO_ERROR : Z := 0.

(** What tinyobjloader hands back: only the members [run_app] reads. *)
Record index_t := mk_index {
  vertex_index : Z;
  normal_index : Z;
  texcoord_index : Z
}.

Record mesh_t := mk_mesh { indices : list index_t }.

Record shape_t := mk_shape { name : string; mesh : mesh_t }.

Record attrib_t := mk_attrib { vertices : list f32 }.

(** The outputs of one [tinyobj::LoadObj] call. *)
Record LoadObj_out := mk_load {
  ret : bool;
  warn : string;
  err : string;
  attrib : attrib_t;
  shapes : list shape_t
}.

(** ** The interfaces the program is written against *)

(** Dear ImGui with its SDL2 and OpenGL3 bindings: the overlay state, how
    events and frame starts change it, and the [ImGuiIO] members read. *)
Record UIOverlay := {
  ui : Type;
  CreateContext : ui;
  ProcessEvent : ui -> SDL_Event -> ui;
  NewFrame : ui -> ui;
  WantCaptureKeyboard : ui -> bool;
  WantCaptureMouse : ui -> bool;
  DisplaySize : ui -> f32 * f32;
  Framerate : ui -> f32
}.

(** [arcball_camera.h]. *)
Record CameraModel := {
  ArcballCamera : Type;
  camera_new : vec3 -> f32 -> Z * Z -> ArcballCamera;
  mouse : ArcballCamera -> SDL_Event -> f32 -> ArcballCamera;
  eye_pos : ArcballCamera -> vec3;
  eye_dir : ArcballCamera -> vec3;
  up_dir : ArcballCamera -> vec3
}.

(** binary32 division and the float-to-int conversion of a C cast. *)
Record FloatOps := {
  f32_div : f32 -> f32 -> f32;
  f32_to_int : f32 -> Z
}.

(** The same overlay reporting another frame rate. *)
Definition with_framerate (U : UIOverlay) (rate : ui U -> f32) : UIOverlay := {|
  ui := ui U;
  CreateContext := CreateContext U;
  ProcessEvent := ProcessEvent U;
  NewFrame := NewFrame U;
  WantCaptureKeyboard := WantCaptureKeyboard U;
  WantCaptureMouse := WantCaptureMouse U;
  DisplaySize := DisplaySize U;
  Framerate := rate
|}.

(** ** Environment and program input *)

Record invocation := mk_invocation { argv0 : string; args : list string }.

Definition argv (inv : invocation) : list string := argv0 inv :: args inv.
Definition argc (inv : invocation) : Z := Z.of_nat (List.length (argv inv)).
Definition argv_at (inv : invocation) (i : nat) : string := nth i (argv inv) "".

(** One pass of the outer loop sees the events [SDL_PollEvent] delivers
    until it returns 0, and the pointer [ospMapFrameBuffer] returns. *)
Record frame_input := mk_frame {
  pending : list SDL_Event;
  fb_pointer : Z
}.

Record environment := mk_env {
  SDL_Init_result : Z;
  SDL_GetError_text : string;
  ogl_LoadFunctions_result : Z;
  LoadObj_result : string -> LoadObj_out;
  ospInit_result : Z;
  window_id : Z;
  frames : list frame_input
}.

(** ** Observable calls *)

Inductive stream := cout | cerr.

(** The OSPRay handles, named by the local variable that holds them.  A
    call that returns a value to the program carries it as its last
    argument ([SDL_PollEvent], [ospMapFrameBuffer]). *)
Inductive osp_obj :=
| verts_data | indices_data | geom | world | osp_camera | renderer | osp_fb.

Inductive osp_source :=
| float_array (l : list f32)
| int_array (l : list Z).

Inductive call :=
| Print (s : stream) (text : string)
| SDL_Init (flags : string)
| SDL_GL_SetAttribute (attr value : string)
| SDL_CreateWindow (title : string) (x y : string) (w h : Z) (flags : string)
| SDL_GL_CreateContext
| SDL_GL_SetSwapInterval (interval : Z)
| SDL_GL_MakeCurrent
| ogl_LoadFunctions
| ImGui_CreateContext
| ImGui_StyleColorsDark
| ImGui_ImplSDL2_InitForOpenGL
| ImGui_ImplOpenGL3_Init (glsl_version : string)
| ImGui_ImplOpenGL3_Shutdown
| ImGui_ImplSDL2_Shutdown
| ImGui_DestroyContext
| SDL_GL_DeleteContext
| SDL_DestroyWindow
| SDL_Quit
| ArcballCamera_ctor (center : vec3) (zoom : f32) (screen : Z * Z)
| tinyobj_LoadObj (path : string)
| ospInit
| ospNewData (dst : osp_obj) (num_items : nat) (ty : string) (src : osp_source)
| ospCommit (obj : osp_obj)
| ospNewGeometry (dst : osp_obj) (kind : string)
| ospSetObject (obj : osp_obj) (param : string) (value : osp_obj)
| ospNewModel (dst : osp_obj)
| ospAddGeometry (model g : osp_obj)
| ospNewCamera (dst : osp_obj) (kind : string)
| ospSet1f (obj : osp_obj) (param : string) (v : f32)
| ospSet3fv (obj : osp_obj) (param : string) (v : vec3)
| ospNewRenderer (dst : osp_obj) (kind : string)
| ospNewFrameBuffer (dst : osp_obj) (w h : Z) (format channels : string)
| Shader_ctor (vs fs : string)
| glGenTextures (n : Z)
| glBindTexture (target : string)
| glTexStorage2D (target : string) (levels : Z) (format : string) (w h : Z)
| glTexParameteri (target pname value : string)
| glCreateVertexArrays (n : Z)
| glBindVertexArray
| glClearColor (r g b a : f32)
| glDisable (cap : string)
| SDL_PollEvent (polled : option SDL_Event)
| ImGui_ImplSDL2_ProcessEvent (e : SDL_Event)
| ArcballCamera_mouse (e : SDL_Event) (dt : f32)
| ImGui_ImplOpenGL3_NewFrame
| ImGui_ImplSDL2_NewFrame
| ImGui_NewFrame
| ImGui_Begin (title : string)
| ImGui_Text (fmt : string) (fargs : list f32)
| ImGui_End
| ImGui_Render
| glViewport (x y w h : Z)
| ospFrameBufferClear (fb : osp_obj) (channels : string)
| ospRenderFrame (fb r : osp_obj) (channels : string)
| ospMapFrameBuffer (fb : osp_obj) (channels : string) (mapped : Z)
| glTexSubImage2D (target : string) (level x y w h : Z) (format ty : string)
    (pixels : Z)
| ospUnmapFrameBuffer (mapped : Z) (fb : osp_obj)
| glClear (mask : string)
| glUseProgram
| glDrawArrays (mode : string) (first count : Z)
| ImGui_ImplOpenGL3_RenderDrawData
| SDL_GL_SwapWindow.

(** ** How a run ends *)

(** A computation stops early on [std::exit], on an exception nobody
    catches, or because the recorded input ends while the loop still runs. *)
Inductive halt :=
| Exit (status : Z)
| Uncaught (what : string)
| StillRunning.

Inductive result (A : Type) :=
| Val (a : A)
| Stop (h : halt).
Arguments Val {A} a.
Arguments Stop {A} h.

(** The text helpers of the [<<] chains. *)
Definition nl : string := String "010"%char EmptyString.
Definition string_of_nat (n : nat) : string :=
  NilEmpty.string_of_uint (Nat.to_uint n).

(** The two GLSL sources, [main.cpp] lines 15-40. *)
Definition fullscreen_quad_vs : string := "
#version 450 core

const vec4 pos[4] = vec4[4](
	vec4(-1, 1, 0.5, 1),
	vec4(-1, -1, 0.5, 1),
	vec4(1, 1, 0.5, 1),
	vec4(1, -1, 0.5, 1)
);

void main(void){
	gl_Position = pos[gl_VertexID];
}
".

Definition display_texture_fs : string := "
#version 450 core

layout(binding=0) uniform sampler2D img;

out vec4 color;

void main(void){ 
	ivec2 uv = ivec2(gl_FragCoord.xy);
	color = texelFetch(img, uv, 0);
}".

(** ** A small instance to run the program on *)

Module Sample.

(** An overlay that takes keyboard and mouse while a mouse button is held
    over it (event types 0x401 and 0x402 are button down and up). *)
Definition UI : UIOverlay := {|
  ui := bool;
  CreateContext := false;
  ProcessEvent := fun u e =>
    if type e =? 0x401 then true else if type e =? 0x402 then false else u;
  NewFrame := fun u => u;
  WantCaptureKeyboard := fun u => u;
  WantCaptureMouse := fun u => u;
  DisplaySize := fun _ => (0x44A00000, 0x44340000);
  Framerate := fun _ => 0x42700000
|}.

(** A camera that remembers the calls to [mouse]. *)
Definition CAM : CameraModel := {|
  ArcballCamera := list (SDL_Event * f32);
  camera_new := fun _ _ _ => [];
  mouse := fun c e dt => c ++ [(e, dt)];
  eye_pos := fun c => mk_vec3 0 0 (Z.of_nat (List.length c));
  eye_dir := fun _ => mk_vec3 0 0 0xBF800000;
  up_dir := fun _ => mk_vec3 0 0x3F800000 0
|}.

Definition FP : FloatOps := {|
  f32_div := fun a b => 0x41855555;
  f32_to_int := fun a => if a =? 0x44A00000 then 1280 else 720
|}.

Definition ev (ty : Z) : SDL_Event := mk_event ty 0 0 0 [].
Definition quit_event : SDL_Event := ev SDL_QUIT.
Definition escape_event : SDL_Event := mk_event SDL_KEYDOWN SDLK_ESCAPE 0 0 [].
Definition close_event (id : Z) : SDL_Event :=
  mk_event SDL_WINDOWEVENT 0 SDL_WINDOWEVENT_CLOSE id [].
Definition resize_event (id : Z) : SDL_Event :=
  mk_event SDL_WINDOWEVENT 0 SDL_WINDOWEVENT_RESIZED id [1920; 1080].
Definition motion_event : SDL_Event := mk_event SDL_MOUSEMOTION 0 0 0 [3; 4].
Definition wheel_event : SDL_Event := mk_event SDL_MOUSEWHEEL 0 0 0 [1].

(** A model of two shapes: one triangle and a quad cut in two. *)
Definition vi (i : Z) : index_t := mk_index i (-1) (-1).
Definition two_shapes : LoadObj_out :=
  mk_load true "" ""
    (mk_attrib [0; 0; 0; 1; 0; 0; 1; 1; 0; 0; 1; 0; 2; 2; 2])
    [mk_shape "tri" (mk_mesh [vi 0; vi 1; vi 2]);
     mk_shape "quad" (mk_mesh [vi 0; vi 1; vi 2; vi 0; vi 2; vi 3])].

Definition env (fs : list frame_input) : environment :=
  mk_env 0 "" 1 (fun _ => two_shapes) OSP_NO_ERROR 7 fs.

(** The same machine with an OSPRay that fails to initialise. *)
Definition env_ospray_fails : environment :=
  mk_env 0 "" 1 (fun _ => two_shapes) 1 7 [].

(** A loader that warns, one that reports an error, one that just fails. *)
Definition env_loader (out : LoadObj_out) : environment :=
  mk_env 0 "" 1 (fun _ => out) OSP_NO_ERROR 7 [].

(** A model whose faces were not cut into triangles: a quad and a
    pentagon, four and five indices, over six vertices and one stray
    float. *)
Definition ragged_shapes : LoadObj_out :=
  mk_load true "" ""
    (mk_attrib [0; 0; 0; 1; 0; 0; 1; 1; 0; 0; 1; 0; 2; 2; 2; 3; 3; 3; 4])
    [mk_shape "quad" (mk_mesh [vi 0; vi 1; vi 2; vi 3]);
     mk_shape "pentagon" (mk_mesh [vi 0; vi 1; vi 2; vi 4; vi 5])].


(** A file that cannot be opened: an error text and a failed load. *)
Definition unreadable : LoadObj_out :=
  mk_load false "" "Cannot open file [bunny.obj]" (mk_attrib []) [].

Definition viewer : invocation := mk_invocation "rtobj" ["bunny.obj"].

End Sample.

(** ** The OptiX backend, [optix/render_optix.h] *)

Module RenderOptiX.

(** The camera-dependent launch parameters: what [update_view_parameters]
    was given. *)
Record view_parameters := mk_view {
  view_pos : vec3;
  view_dir : vec3;
  view_up : vec3;
  view_fovy : f32
}.

(** The members of [struct RenderOptiX] that a [render] call works on.
    [launch_params] is the camera part of the launch-parameter buffer,
    empty until the first upload; [uploads] counts the uploads of it and
    is not a member of the struct. *)
Record t := mk {
  launch_params : option view_parameters;
  uploads : nat;
  width : Z;
  height : Z;
  frame_id : Z
}.

(** [RenderOptiX()] followed by [initialize(fb_width, fb_height)];
    [frame_id] starts at 0 as its member initialiser says. *)
Definition initialize (fb_width fb_height : Z) : t :=
  mk None 0 fb_width fb_height 0.

(** Modelled from the spec: the body of [update_view_parameters], which
    [render_optix.h] only declares.  It uploads the camera-dependent launch
    parameters. *)
Definition update_view_parameters (r : t) (pos dir up : vec3) (fovy : f32)
    : t :=
  mk (Some (mk_view pos dir up fovy)) (S (uploads r))
     (width r) (height r) (frame_id r).

(** Modelled from the spec: the body of [RenderOptiX::render], which
    [render_optix.h] only declares.  It updates the camera-dependent launch
    parameters only when [camera_changed] is true, advances the frame
    accumulation counter (a [uint32_t]), and returns the wall-clock render
    time, which the caller of the model supplies as [elapsed]. *)
Definition render (elapsed : Q) (r : t) (pos dir up : vec3) (fovy : f32)
    (camera_changed : bool) : Q * t :=
  let r1 := if camera_changed
            then update_view_parameters r pos dir up fovy
            else r in
  (elapsed,
   mk (launch_params r1) (uploads r1) (width r1) (height r1)
      ((frame_id r1 + 1) mod 2 ^ 32)).

End RenderOptiX.

(** ** The program *)

Section Program.

Variable UI : UIOverlay.
Variable CAM : CameraModel.
Variable FP : FloatOps.
Variable env : environment.

(** The mutable variables of [run_app]: the overlay behind [io], the
    camera and the loop flag. *)
Record state := mk_state {
  io : ui UI;
  camera : ArcballCamera CAM;
  done : bool
}.

(** A computation reads and updates the state, makes calls, and either
    yields a value or stops. *)
Definition M (A : Type) : Type := state -> result A * state * list call.

Definition pure {A} (a : A) : M A := fun s => (Val a, s, []).

Definition bind {A B} (m : M A) (k : A -> M B) : M B := fun s =>
  match m s with
  | (Val a, s1, t1) =>
      match k a s1 with
      | (r, s2, t2) => (r, s2, t1 ++ t2)
      end
  | (Stop h, s1, t1) => (Stop h, s1, t1)
  end.

Notation "x <- m ;; k" := (bind m (fun x => k))
  (at level 61, m at next level, right associativity).
Notation "m ;; k" := (bind m (fun _ => k))
  (at level 61, right associativity).

Definition emit (c : call) : M unit := fun s => (Val tt, s, [c]).
Definition emits (cs : list call) : M unit := fun s => (Val tt, s, cs).
Definition stop {A} (h : halt) : M A := fun s => (Stop h, s, []).
Definition get : M state := fun s => (Val s, s, []).
Definition when (b : bool) (m : M unit) : M unit := if b then m else pure tt.

Definition set_done (b : bool) : M unit := fun s =>
  (Val tt, mk_state (io s) (camera s) b, []).

(** [ImGui_ImplSDL2_ProcessEvent(&event)] *)
Definition ui_process_event (e : SDL_Event) : M unit := fun s =>
  (Val tt, mk_state (ProcessEvent UI (io s) e) (camera s) (done s),
   [ImGui_ImplSDL2_ProcessEvent e]).

(** The three frame-start calls of lines 228-230. *)
Definition ui_new_frame : M unit := fun s =>
  (Val tt, mk_state (NewFrame UI (io s)) (camera s) (done s),
   [ImGui_ImplOpenGL3_NewFrame; ImGui_ImplSDL2_NewFrame; ImGui_NewFrame]).

(** [camera.mouse(event, dt)] *)
Definition camera_mouse (e : SDL_Event) (dt : f32) : M unit := fun s =>
  (Val tt, mk_state (io s) (mouse CAM (camera s) e dt) (done s),
   [ArcballCamera_mouse e dt]).

(** The body of the inner [while (SDL_PollEvent(&event))], lines 210-225. *)
Definition handle_event (e : SDL_Event) : M unit :=
  ui_process_event e ;;
  when (type e =? SDL_QUIT) (set_done true) ;;
  s <- get ;;
  when (negb (WantCaptureKeyboard UI (io s)) && (type e =? SDL_KEYDOWN)
        && (key_keysym_sym e =? SDLK_ESCAPE))
    (set_done true) ;;
  when ((type e =? SDL_WINDOWEVENT)
        && (window_event e =? SDL_WINDOWEVENT_CLOSE)
        && (window_windowID e =? window_id env))
    (set_done true) ;;
  when (negb (WantCaptureMouse UI (io s))
        && ((type e =? SDL_MOUSEMOTION) || (type e =? SDL_MOUSEWHEEL)))
    (camera_mouse e lit_0_016f).

(** The inner loop, line 209: poll until the queue is empty. *)
Fixpoint poll_events (q : list SDL_Event) : M unit :=
  match q with
  | [] => emit (SDL_PollEvent None)
  | e :: q' =>
      emit (SDL_PollEvent (Some e)) ;;
      handle_event e ;;
      poll_events q'
  end.

(** Lines 232-239: the debug panel and the viewport. *)
Definition overlay_calls (s : state) : list call :=
  [ImGui_Begin "Debug Panel";
   ImGui_Text "Application average %.3f ms/frame (%.1f FPS)"
     [f32_div FP lit_1000f (Framerate UI (io s)); Framerate UI (io s)];
   ImGui_End;
   ImGui_Render;
   glViewport 0 0 (f32_to_int FP (fst (DisplaySize UI (io s))))
                  (f32_to_int FP (snd (DisplaySize UI (io s))))].

(** Lines 241-254: the camera is sent and the frame rendered. *)
Definition render_calls (s : state) : list call :=
  let cam_pos := eye_pos CAM (camera s) in
  let cam_dir := eye_dir CAM (camera s) in
  let cam_up := up_dir CAM (camera s) in
  [ospSet3fv osp_camera "pos" cam_pos;
   ospSet3fv osp_camera "dir" cam_dir;
   ospSet3fv osp_camera "up" cam_up;
   ospCommit osp_camera;
   ospSetObject renderer "camera" osp_camera;
   ospCommit renderer;
   ospFrameBufferClear osp_fb "OSP_FB_COLOR";
   ospRenderFrame osp_fb renderer "OSP_FB_COLOR"].

(** Lines 257-267, with [fb] the pointer line 256 obtained. *)
Definition blit_calls (fb : Z) : list call :=
  [glTexSubImage2D "GL_TEXTURE_2D" 0 0 0 1280 720 "GL_RGBA"
     "GL_UNSIGNED_BYTE" fb;
   ospUnmapFrameBuffer fb osp_fb;
   glClear "GL_COLOR_BUFFER_BIT | GL_DEPTH_BUFFER_BIT";
   glUseProgram;
   glDrawArrays "GL_TRIANGLE_STRIP" 0 4;
   ImGui_ImplOpenGL3_RenderDrawData;
   SDL_GL_SwapWindow].

(** [ospMapFrameBuffer(osp_fb, OSP_FB_COLOR)]: the environment chooses the
    pointer. *)
Definition map_frame_buffer (f : frame_input) : M Z := fun s =>
  (Val (fb_pointer f), s,
   [ospMapFrameBuffer osp_fb "OSP_FB_COLOR" (fb_pointer f)]).

(** One pass of the outer loop, lines 208-267. *)
Definition frame (f : frame_input) : M unit :=
  poll_events (pending f) ;;
  ui_new_frame ;;
  s <- get ;;
  emits (overlay_calls s) ;;
  emits (render_calls s) ;;
  fb <- map_frame_buffer f ;;
  emits (blit_calls fb).

(** [while (!done) { ... }], line 198, over the recorded frames. *)
Fixpoint main_loop (fs : list frame_input) : M unit :=
  s <- get ;;
  if done s then pure tt
  else match fs with
       | [] => stop StillRunning
       | f :: fs' => frame f ;; main_loop fs'
       end.

(** The inner [for] of lines 134-136: one [push_back] per index. *)
Definition push_indices (m : mesh_t) (idx : list Z) : list Z :=
  fold_left (fun acc i => acc ++ [vertex_index i]) (indices m) idx.

(** Lines 131-132: the line printed for a shape. *)
Definition shape_line (s : shape_t) : call :=
  Print cout ("Loading shape " +++ name s +++ ", has "
              +++ string_of_nat (List.length (indices (mesh s)) / 3)%nat
              +++ " triangles" +++ nl).

(** The outer [for] of lines 129-137. *)
Fixpoint collect_indices (ss : list shape_t) (idx : list Z) : M (list Z) :=
  match ss with
  | [] => pure idx
  | s :: ss' =>
      emit (shape_line s) ;;
      collect_indices ss' (push_indices (mesh s) idx)
  end.

(** Lines 144-195: scene, camera, renderer, frame buffer, blit setup. *)
Definition geometry_calls (verts : list f32) (idx : list Z) : list call :=
  [ospNewData verts_data (List.length verts / 3)%nat "OSP_FLOAT3"
     (float_array verts);
   ospCommit verts_data;
   ospNewData indices_data (List.length idx / 3)%nat "OSP_INT3"
     (int_array idx);
   ospCommit indices_data;
   ospNewGeometry geom "triangles";
   ospSetObject geom "vertex" verts_data;
   ospSetObject geom "index" indices_data;
   ospCommit geom;
   ospNewModel world;
   ospAddGeometry world geom;
   ospCommit world].

Definition renderer_calls (s : state) : list call :=
  let cam_pos := eye_pos CAM (camera s) in
  let cam_dir := eye_dir CAM (camera s) in
  let cam_up := up_dir CAM (camera s) in
  [ospNewCamera osp_camera "perspective";
   ospSet1f osp_camera "fovy" lit_65f;
   ospSet1f osp_camera "aspect" lit_1280f_div_720f;
   ospSet3fv osp_camera "pos" cam_pos;
   ospSet3fv osp_camera "dir" cam_dir;
   ospSet3fv osp_camera "up" cam_up;
   ospCommit osp_camera;
   ospNewRenderer renderer "raycast_Ns";
   ospSetObject renderer "model" world;
   ospSetObject renderer "camera" osp_camera;
   ospCommit renderer;
   ospNewFrameBuffer osp_fb 1280 720 "OSP_FB_SRGBA" "OSP_FB_COLOR"].

Definition display_calls : list call :=
  [Shader_ctor fullscreen_quad_vs display_texture_fs;
   glGenTextures 1;
   glBindTexture "GL_TEXTURE_2D";
   glTexStorage2D "GL_TEXTURE_2D" 1 "GL_RGBA8" 1280 720;
   glTexParameteri "GL_TEXTURE_2D" "GL_TEXTURE_MIN_FILTER" "GL_NEAREST";
   glTexParameteri "GL_TEXTURE_2D" "GL_TEXTURE_MAG_FILTER" "GL_NEAREST";
   glTexParameteri "GL_TEXTURE_2D" "GL_TEXTURE_WRAP_S" "GL_CLAMP_TO_EDGE";
   glTexParameteri "GL_TEXTURE_2D" "GL_TEXTURE_WRAP_T" "GL_CLAMP_TO_EDGE";
   glCreateVertexArrays 1;
   glBindVertexArray;
   glClearColor lit_0f lit_0f lit_0f lit_0f;
   glDisable "GL_DEPTH_TEST"].

Definition setup_scene (verts : list f32) (idx : list Z) : M unit :=
  emits (geometry_calls verts idx) ;;
  s <- get ;;
  emits (renderer_calls s) ;;
  emits display_calls.

(** [run_app], lines 103-269. *)
Definition run_app (inv : invocation) : M unit :=
  emit (ArcballCamera_ctor (mk_vec3 lit_0f lit_0f lit_0f) lit_100f (1280, 720)) ;;
  emit (tinyobj_LoadObj (argv_at inv 1)) ;;
  let f := LoadObj_result env (argv_at inv 1) in
  when (negb (warn f =? "")%string)
    (emit (Print cout ("Warning loading model: " +++ warn f +++ nl))) ;;
  (if negb (err f =? "")%string
   then emit (Print cerr ("Error loading model: " +++ err f +++ nl)) ;;
        stop (Exit 1)
   else pure tt) ;;
  (if negb (ret f)
   then emit (Print cerr ("Failed to load OBJ model '" +++ argv_at inv 1
                          +++ "', aborting" +++ nl)) ;;
        stop (Exit 1)
   else pure tt) ;;
  idx <- collect_indices (shapes f) [] ;;
  emit ospInit ;;
  (if negb (ospInit_result env =? OSP_NO_ERROR)
   then emit (Print cout ("Failed to init OSPRay" +++ nl)) ;;
        stop (Uncaught "Failed to init OSPRay")
   else pure tt) ;;
  setup_scene (vertices (attrib f)) idx ;;
  set_done false ;;
  main_loop (frames env).

(** Lines 55-75: GL attributes, the window, its context, the GL loader. *)
Definition window_calls : list call :=
  [SDL_GL_SetAttribute "SDL_GL_CONTEXT_FLAGS"
     "SDL_GL_CONTEXT_FORWARD_COMPATIBLE_FLAG";
   SDL_GL_SetAttribute "SDL_GL_CONTEXT_PROFILE_MASK"
     "SDL_GL_CONTEXT_PROFILE_CORE";
   SDL_GL_SetAttribute "SDL_GL_CONTEXT_MAJOR_VERSION" "4";
   SDL_GL_SetAttribute "SDL_GL_CONTEXT_MINOR_VERSION" "5";
   SDL_GL_SetAttribute "SDL_GL_CONTEXT_FLAGS" "SDL_GL_CONTEXT_DEBUG_FLAG";
   SDL_GL_SetAttribute "SDL_GL_DOUBLEBUFFER" "1";
   SDL_GL_SetAttribute "SDL_GL_DEPTH_SIZE" "24";
   SDL_GL_SetAttribute "SDL_GL_STENCIL_SIZE" "8";
   SDL_CreateWindow "rtobj" "SDL_WINDOWPOS_CENTERED"
     "SDL_WINDOWPOS_CENTERED" 1280 720
     "SDL_WINDOW_OPENGL | SDL_WINDOW_RESIZABLE";
   SDL_GL_CreateContext;
   SDL_GL_SetSwapInterval 1;
   SDL_GL_MakeCurrent;
   ogl_LoadFunctions].

(** Lines 81-88. *)
Definition overlay_init_calls : list call :=
  [ImGui_CreateContext;
   ImGui_StyleColorsDark;
   ImGui_ImplSDL2_InitForOpenGL;
   ImGui_ImplOpenGL3_Init "#version 450 core"].

(** Lines 92-98. *)
Definition shutdown_calls : list call :=
  [ImGui_ImplOpenGL3_Shutdown;
   ImGui_ImplSDL2_Shutdown;
   ImGui_DestroyContext;
   SDL_GL_DeleteContext;
   SDL_DestroyWindow;
   SDL_Quit].

(** [main], lines 44-101. *)
Definition main (inv : invocation) : M Z :=
  if argc inv <? 2
  then emit (Print cout ("Usage: " +++ argv_at inv 0 +++ " <obj file>" +++ nl)) ;;
       pure 1
  else
    emit (SDL_Init "SDL_INIT_EVERYTHING") ;;
    if negb (SDL_Init_result env =? 0)
    then emit (Print cerr ("Failed to init SDL: " +++ SDL_GetError_text env +++ nl)) ;;
         pure (-1)
    else
      emits window_calls ;;
      if ogl_LoadFunctions_result env =? ogl_LOAD_FAILED
      then emit (Print cerr ("Failed to initialize OpenGL" +++ nl)) ;;
           pure 1
      else
        emits overlay_init_calls ;;
        run_app inv ;;
        emits shutdown_calls ;;
        pure 0.

(** The variables of [run_app] before anything touched them. *)
Definition init_state : state :=
  mk_state (CreateContext UI)
           (camera_new CAM (mk_vec3 lit_0f lit_0f lit_0f) lit_100f (1280, 720))
           false.

(** A run of the program: how [main] ended and the calls it made. *)
Definition run (inv : invocation) : result Z * list call :=
  match main inv init_state with
  | (r, _, t) => (r, t)
  end.

Definition outcome (inv : invocation) : result Z := fst (run inv).
Definition trace (inv : invocation) : list call := snd (run inv).

(** ** Observing a computation *)

Definition res_of {A} (x : result A * state * list call) : result A :=
  fst (fst x).
Definition st_of {A} (x : result A * state * list call) : state :=
  snd (fst x).
Definition tr_of {A} (x : result A * state * list call) : list call :=
  snd x.

(** ** The notions the specification speaks of *)

Inductive app_state := RUNNING | TERMINATED.

Definition app_state_of (s : state) : app_state :=
  if done s then TERMINATED else RUNNING.

(** The three events that end the application, for an overlay in state
    [u] at the time the application looks at the event. *)
Inductive terminating (u : ui UI) (e : SDL_Event) : Prop :=
| quit_signal :
    type e = SDL_QUIT -> terminating u e
| escape_without_focus :
    type e = SDL_KEYDOWN -> key_keysym_sym e = SDLK_ESCAPE ->
    WantCaptureKeyboard UI u = false -> terminating u e
| window_close :
    type e = SDL_WINDOWEVENT -> window_event e = SDL_WINDOWEVENT_CLOSE ->
    window_windowID e = window_id env -> terminating u e.

Definition pointer_event (e : SDL_Event) : Prop :=
  type e = SDL_MOUSEMOTION \/ type e = SDL_MOUSEWHEEL.

(** The overlay after it was handed the events of [q], in order. *)
Definition overlay_after (u : ui UI) (q : list SDL_Event) : ui UI :=
  fold_left (ProcessEvent UI) q u.

(** A poll cycle polls a terminating event. *)
Definition polls_terminating (u : ui UI) (q : list SDL_Event) : Prop :=
  exists q1 e q2,
    q = q1 ++ e :: q2 /\ terminating (overlay_after u (q1 ++ [e])) e.

(** An event of one of the three kinds that can end the application,
    whatever the overlay does. *)
Definition termination_kind (e : SDL_Event) : Prop :=
  type e = SDL_QUIT
  \/ (type e = SDL_KEYDOWN /\ key_keysym_sym e = SDLK_ESCAPE)
  \/ (type e = SDL_WINDOWEVENT /\ window_event e = SDL_WINDOWEVENT_CLOSE
      /\ window_windowID e = window_id env).

(** The state in which the frame is drawn: all events handled, then the
    overlay started a new frame. *)
Definition frame_state (f : frame_input) (s : state) : state :=
  let s1 := st_of (poll_events (pending f) s) in
  mk_state (NewFrame UI (io s1)) (camera s1) (done s1).

(** An event is handed to the overlay. *)
Definition is_overlay_forward (c : call) : bool :=
  match c with
  | ImGui_ImplSDL2_ProcessEvent _ => true
  | _ => false
  end.

(** A call of the per-event handling: to the overlay or to the camera. *)
Definition is_event_handling (c : call) : bool :=
  match c with
  | ImGui_ImplSDL2_ProcessEvent _ | ArcballCamera_mouse _ _ => true
  | _ => false
  end.

(** The vertex indices of all shapes, shape after shape. *)
Definition all_indices (ss : list shape_t) : list Z :=
  List.concat (map (fun sh => map vertex_index (indices (mesh sh))) ss).

(** Lines 106-117: the camera, the loader call, the warning if any. *)
Definition load_calls (inv : invocation) : list call :=
  let f := LoadObj_result env (argv_at inv 1) in
  [ArcballCamera_ctor (mk_vec3 lit_0f lit_0f lit_0f) lit_100f (1280, 720);
   tinyobj_LoadObj (argv_at inv 1)]
  ++ (if negb (warn f =? "")%string
      then [Print cout ("Warning loading model: " +++ warn f +++ nl)]
      else []).

(** Everything [main] calls before [run_app]. *)
Definition startup_calls : list call :=
  SDL_Init "SDL_INIT_EVERYTHING" :: window_calls ++ overlay_init_calls.

(** What [main] returns, or how the process stops, once the loop is over. *)
Definition after_loop (r : result unit) : result Z :=
  match r with
  | Val _ => Val 0
  | Stop h => Stop h
  end.

Definition after_loop_calls (r : result unit) : list call :=
  match r with
  | Val _ => shutdown_calls
  | Stop _ => []
  end.

(** The exit status the parent process sees, when the process ends by
    returning from [main] or by [std::exit]: the low eight bits. *)
Definition exit_status (r : result Z) : option Z :=
  match r with
  | Val n => Some (n mod 256)
  | Stop (Exit n) => Some (n mod 256)
  | Stop (Uncaught _) => None
  | Stop StillRunning => None
  end.

(** [sub] occurs in [s]. *)
Definition contains (s sub : string) : Prop :=
  exists before after, s = before +++ sub +++ after.



Definition is_stderr (c : call) : bool :=
  match c with
  | Print cerr _ => true
  | _ => false
  end.

(** Calls that create the window, load the model or render. *)
Definition is_window_load_or_render (c : call) : bool :=
  match c with
  | SDL_Init _ | SDL_CreateWindow _ _ _ _ _ _ | SDL_GL_CreateContext
  | tinyobj_LoadObj _ | ospInit | ospRenderFrame _ _ _
  | ospNewFrameBuffer _ _ _ _ _ | SDL_GL_SwapWindow => true
  | _ => false
  end.

(** The calls one pass of the inner loop can make. *)
Definition poll_call (c : call) : bool :=
  match c with
  | SDL_PollEvent _ | ImGui_ImplSDL2_ProcessEvent _ => true
  | ArcballCamera_mouse _ dt => dt =? lit_0_016f
  | _ => false
  end.

(** The calls the rest of an iteration can make. *)
Definition draw_call (c : call) : bool :=
  match c with
  | ImGui_ImplOpenGL3_NewFrame | ImGui_ImplSDL2_NewFrame | ImGui_NewFrame
  | ImGui_Begin _ | ImGui_Text _ _ | ImGui_End | ImGui_Render
  | glViewport _ _ _ _
  | ospSet3fv osp_camera _ _
  | ospCommit osp_camera | ospCommit renderer
  | ospSetObject renderer _ osp_camera
  | ospFrameBufferClear osp_fb _
  | ospMapFrameBuffer osp_fb _ _
  | ospUnmapFrameBuffer _ osp_fb
  | glClear _ | glUseProgram | glDrawArrays _ _ _
  | ImGui_ImplOpenGL3_RenderDrawData | SDL_GL_SwapWindow => true
  | ospRenderFrame osp_fb renderer channels =>
      (channels =? "OSP_FB_COLOR")%string
  | glTexSubImage2D target level x y w h format ty _ =>
      (target =? "GL_TEXTURE_2D")%string
      && (level =? 0) && (x =? 0) && (y =? 0) && (w =? 1280) && (h =? 720)
      && (format =? "GL_RGBA")%string && (ty =? "GL_UNSIGNED_BYTE")%string
  | _ => false
  end.

Definition loop_call (c : call) : bool := poll_call c || draw_call c.

Definition is_ospInit (c : call) : bool :=
  match c with
  | ospInit => true
  | _ => false
  end.

Definition is_new_data (c : call) : bool :=
  match c with
  | ospNewData _ _ _ _ => true
  | _ => false
  end.

(** The triangles of a shape, counted as line 132 prints them. *)
Definition triangle_count (sh : shape_t) : nat :=
  (List.length (indices (mesh sh)) / 3)%nat.

Definition total_triangles (ss : list shape_t) : nat :=
  list_sum (map triangle_count ss).

(** Every face of the shape is a triangle: three indices each. *)
Definition triangulated (sh : shape_t) : Prop :=
  (List.length (indices (mesh sh)) mod 3 = 0)%nat.

(** Calls that fix a size: the window, the frame buffer, the texture. *)
Definition is_allocation (c : call) : bool :=
  match c with
  | SDL_CreateWindow _ _ _ _ _ _ | ospNewFrameBuffer _ _ _ _ _
  | glTexStorage2D _ _ _ _ _ => true
  | _ => false
  end.

Definition is_render (c : call) : bool :=
  match c with
  | ospRenderFrame _ _ _ => true
  | _ => false
  end.


(** The three allocations of the program, all 1280 by 720. *)
Definition allocations : list call :=
  [SDL_CreateWindow "rtobj" "SDL_WINDOWPOS_CENTERED" "SDL_WINDOWPOS_CENTERED"
     1280 720 "SDL_WINDOW_OPENGL | SDL_WINDOW_RESIZABLE";
   ospNewFrameBuffer osp_fb 1280 720 "OSP_FB_SRGBA" "OSP_FB_COLOR";
   glTexStorage2D "GL_TEXTURE_2D" 1 "GL_RGBA8" 1280 720].

Definition is_camera_mouse (c : call) : bool :=
  match c with
  | ArcballCamera_mouse _ _ => true
  | _ => false
  end.

(** The calls that touch the frame buffer or must not overlap its mapping:
    clear, render, map, the texture upload that reads it, unmap, the UI
    draw and the buffer swap. *)
Definition fb_related (c : call) : bool :=
  match c with
  | ospFrameBufferClear _ _ | ospRenderFrame _ _ _
  | ospMapFrameBuffer _ _ _ | glTexSubImage2D _ _ _ _ _ _ _ _ _
  | ospUnmapFrameBuffer _ _
  | ImGui_ImplOpenGL3_RenderDrawData | SDL_GL_SwapWindow => true
  | _ => false
  end.

(** The mapping discipline of the frame buffer as an automaton over the
    calls: a mapping is opened by [ospMapFrameBuffer], read once through
    the pointer it returned, and closed by [ospUnmapFrameBuffer] of that
    pointer; clear, render, UI draw and swap need the buffer unmapped. *)
Inductive fb_access :=
| Unmapped
| MappedUnread (p : Z)
| MappedRead (p : Z).

Definition fb_step (a : fb_access) (c : call) : option fb_access :=
  match c with
  | ospMapFrameBuffer _ _ p =>
      match a with
      | Unmapped => Some (MappedUnread p)
      | _ => None
      end
  | glTexSubImage2D _ _ _ _ _ _ _ _ pixels =>
      match a with
      | MappedUnread p => if pixels =? p then Some (MappedRead p) else None
      | _ => None
      end
  | ospUnmapFrameBuffer q _ =>
      match a with
      | MappedRead p => if q =? p then Some Unmapped else None
      | _ => None
      end
  | ospFrameBufferClear _ _ | ospRenderFrame _ _ _
  | ImGui_ImplOpenGL3_RenderDrawData | SDL_GL_SwapWindow =>
      match a with
      | Unmapped => Some Unmapped
      | _ => None
      end
  | _ => Some a
  end.

Fixpoint fb_protocol (a : fb_access) (t : list call) : option fb_access :=
  match t with
  | [] => Some a
  | c :: t' =>
      match fb_step a c with
      | Some a' => fb_protocol a' t'
      | None => None
      end
  end.

(** Every call of a run that reaches the loop, up to the loop. *)
Definition setup_calls (inv : invocation) : list call :=
  let f := LoadObj_result env (argv_at inv 1) in
  startup_calls ++ load_calls inv ++ map shape_line (shapes f)
  ++ ospInit
     :: geometry_calls (vertices (attrib f)) (all_indices (shapes f))
     ++ renderer_calls init_state ++ display_calls.

(** The conditions under which a run gets through the set-up: an argument
    is given and SDL, the GL loader, the model load and OSPRay succeed. *)
Definition starts_up (inv : invocation) : Prop :=
  2 <= argc inv
  /\ SDL_Init_result env = 0
  /\ ogl_LoadFunctions_result env <> ogl_LOAD_FAILED
  /\ err (LoadObj_result env (argv_at inv 1)) = ""
  /\ ret (LoadObj_result env (argv_at inv 1)) = true
  /\ ospInit_result env = OSP_NO_ERROR.

(** The calls of lines 92-98 that release what [main] acquired. *)
Definition is_teardown (c : call) : bool :=
  match c with
  | ImGui_ImplOpenGL3_Shutdown | ImGui_ImplSDL2_Shutdown
  | ImGui_DestroyContext | SDL_GL_DeleteContext | SDL_DestroyWindow
  | SDL_Quit => true
  | _ => false
  end.

(** Calls into OSPRay. *)
Definition is_ospray (c : call) : bool :=
  match c with
  | ospInit | ospNewData _ _ _ _ | ospCommit _ | ospNewGeometry _ _
  | ospSetObject _ _ _ | ospNewModel _ | ospAddGeometry _ _
  | ospNewCamera _ _ | ospSet1f _ _ _ | ospSet3fv _ _ _
  | ospNewRenderer _ _ | ospNewFrameBuffer _ _ _ _ _
  | ospFrameBufferClear _ _ | ospRenderFrame _ _ _
  | ospMapFrameBuffer _ _ _ | ospUnmapFrameBuffer _ _ => true
  | _ => false
  end.

Definition is_window_creation (c : call) : bool :=
  match c with
  | SDL_CreateWindow _ _ _ _ _ _ => true
  | _ => false
  end.

Definition is_swap (c : call) : bool :=
  match c with
  | SDL_GL_SwapWindow => true
  | _ => false
  end.

Definition is_poll (c : call) : bool :=
  match c with
  | SDL_PollEvent _ => true
  | _ => false
  end.

(** The calls that hand the camera to OSPRay, and the render call. *)
Definition is_camera_or_render (c : call) : bool :=
  match c with
  | ospSet3fv _ _ _ | ospCommit _ | ospSetObject _ _ _
  | ospRenderFrame _ _ _ => true
  | _ => false
  end.

(** What one event does to the camera when the overlay never takes the
    mouse: pointer motion and wheel events move it, nothing else does. *)
Definition camera_step (c : ArcballCamera CAM) (e : SDL_Event)
    : ArcballCamera CAM :=
  if (type e =? SDL_MOUSEMOTION) || (type e =? SDL_MOUSEWHEEL)
  then mouse CAM c e lit_0_016f
  else c.

(** The four initialisations that can fail: SDL, the GL loader, the model
    load and OSPRay. *)
Definition is_initialisation (c : call) : bool :=
  match c with
  | SDL_Init _ | ogl_LoadFunctions | tinyobj_LoadObj _ | ospInit => true
  | _ => false
  end.

(** ** Equations of the event handling *)

Lemma handle_event_eq (e : SDL_Event) (s : state) :
  handle_event e s =
  (Val tt,
   mk_state
     (ProcessEvent UI (io s) e)
     (if negb (WantCaptureMouse UI (ProcessEvent UI (io s) e))
         && ((type e =? SDL_MOUSEMOTION) || (type e =? SDL_MOUSEWHEEL))
      then mouse CAM (camera s) e lit_0_016f else camera s)
     (if (type e =? SDL_WINDOWEVENT)
         && (window_event e =? SDL_WINDOWEVENT_CLOSE)
         && (window_windowID e =? window_id env)
      then true
      else if negb (WantCaptureKeyboard UI (ProcessEvent UI (io s) e))
              && (type e =? SDL_KEYDOWN) && (key_keysym_sym e =? SDLK_ESCAPE)
      then true
      else if type e =? SDL_QUIT then true else done s),
   ImGui_ImplSDL2_ProcessEvent e
   :: (if negb (WantCaptureMouse UI (ProcessEvent UI (io s) e))
          && ((type e =? SDL_MOUSEMOTION) || (type e =? SDL_MOUSEWHEEL))
       then [ArcballCamera_mouse e lit_0_016f] else [])).
Proof.
  unfold handle_event, bind, when, ui_process_event, set_done, get,
    camera_mouse, pure.
  cbn [io camera done].
  destruct (type e =? SDL_QUIT); cbn [io camera done];
    destruct (negb (WantCaptureKeyboard UI (ProcessEvent UI (io s) e))
              && (type e =? SDL_KEYDOWN) && (key_keysym_sym e =? SDLK_ESCAPE));
    cbn [io camera done];
    destruct ((type e =? SDL_WINDOWEVENT)
              && (window_event e =? SDL_WINDOWEVENT_CLOSE)
              && (window_windowID e =? window_id env));
    cbn [io camera done];
    destruct (negb (WantCaptureMouse UI (ProcessEvent UI (io s) e))
              && ((type e =? SDL_MOUSEMOTION) || (type e =? SDL_MOUSEWHEEL)));
    reflexivity.
Qed.

Lemma poll_events_cons (e : SDL_Event) (q : list SDL_Event) (s : state) :
  poll_events (e :: q) s =
  (res_of (poll_events q (st_of (handle_event e s))),
   st_of (poll_events q (st_of (handle_event e s))),
   SDL_PollEvent (Some e)
   :: tr_of (handle_event e s)
      ++ tr_of (poll_events q (st_of (handle_event e s)))).
Proof.
  cbn [poll_events]. unfold bind at 1. unfold emit at 1.
  unfold bind at 1. rewrite handle_event_eq.
  cbn [st_of tr_of fst snd].
  destruct (poll_events q _) as [[r s'] t]. reflexivity.
Qed.

Lemma poll_events_res (q : list SDL_Event) (s : state) :
  res_of (poll_events q s) = Val tt.
Proof.
  revert s. induction q as [|e q IH]; intro s.
  - reflexivity.
  - rewrite poll_events_cons. apply IH.
Qed.

Lemma poll_events_io (q : list SDL_Event) (s : state) :
  io (st_of (poll_events q s)) = overlay_after (io s) q.
Proof.
  revert s. induction q as [|e q IH]; intro s.
  - reflexivity.
  - rewrite poll_events_cons. cbn [st_of fst snd]. rewrite IH.
    rewrite handle_event_eq. reflexivity.
Qed.

Lemma handle_event_done (e : SDL_Event) (s : state) :
  done (st_of (handle_event e s)) = true <->
  done s = true \/ terminating (ProcessEvent UI (io s) e) e.
Proof.
  rewrite handle_event_eq. cbn [st_of fst snd done].
  split.
  - destruct ((type e =? SDL_WINDOWEVENT)
              && (window_event e =? SDL_WINDOWEVENT_CLOSE)
              && (window_windowID e =? window_id env)) eqn:Hclose.
    { intros _. right.
      apply andb_true_iff in Hclose as [Hclose Hid].
      apply andb_true_iff in Hclose as [Hty Hev].
      apply window_close; now apply Z.eqb_eq. }
    destruct (negb (WantCaptureKeyboard UI (ProcessEvent UI (io s) e))
              && (type e =? SDL_KEYDOWN) && (key_keysym_sym e =? SDLK_ESCAPE))
      eqn:Hesc.
    { intros _. right.
      apply andb_true_iff in Hesc as [Hesc Hsym].
      apply andb_true_iff in Hesc as [Hfocus Hty].
      apply escape_without_focus;
        [now apply Z.eqb_eq | now apply Z.eqb_eq | now apply negb_true_iff]. }
    destruct (type e =? SDL_QUIT) eqn:Hquit.
    { intros _. right. apply quit_signal. now apply Z.eqb_eq. }
    intro Hd. now left.
  - intros [Hd | Ht].
    + rewrite Hd. now case_ifs.
    + destruct Ht as [Hty | Hty Hsym Hfocus | Hty Hev Hid].
      * apply Z.eqb_eq in Hty. rewrite Hty. now case_ifs.
      * apply Z.eqb_eq in Hty, Hsym. rewrite Hty, Hsym, Hfocus.
        cbn. now case_ifs.
      * apply Z.eqb_eq in Hty, Hev, Hid. now rewrite Hty, Hev, Hid.
Qed.

Lemma poll_events_done (q : list SDL_Event) (s : state) :
  done (st_of (poll_events q s)) = true <->
  done s = true \/ polls_terminating (io s) q.
Proof.
  revert s. induction q as [|e q IH]; intro s.
  - cbn. split; [now left|].
    intros [Hd | (q1 & e & q2 & Hq & _)]; [assumption|].
    now destruct q1.
  - rewrite poll_events_cons. cbn [st_of fst snd].
    rewrite IH, handle_event_done.
    assert (Hio : io (st_of (handle_event e s)) = ProcessEvent UI (io s) e)
      by now rewrite handle_event_eq.
    rewrite Hio. split.
    + intros [[Hd | Ht] | (q1 & e' & q2 & Hq & Ht)].
      * now left.
      * right. exists [], e, q. split; [reflexivity | exact Ht].
      * right. exists (e :: q1), e', q2. split; [now rewrite Hq | exact Ht].
    + intros [Hd | (q1 & e' & q2 & Hq & Ht)].
      * left. now left.
      * destruct q1 as [|e1 q1]; cbn in Hq; injection Hq as -> ->.
        -- left. right. exact Ht.
        -- right. exists q1, e', q2. split; [reflexivity | exact Ht].
Qed.

(** ** Equations of the frame and the loop *)

Lemma frame_eq (f : frame_input) (s : state) :
  frame f s =
  (Val tt, frame_state f s,
   tr_of (poll_events (pending f) s)
   ++ [ImGui_ImplOpenGL3_NewFrame; ImGui_ImplSDL2_NewFrame; ImGui_NewFrame]
   ++ overlay_calls (frame_state f s)
   ++ render_calls (frame_state f s)
   ++ ospMapFrameBuffer osp_fb "OSP_FB_COLOR" (fb_pointer f)
      :: blit_calls (fb_pointer f)).
Proof.
  unfold frame, frame_state, bind.
  pose proof (poll_events_res (pending f) s) as Hres.
  destruct (poll_events (pending f) s) as [[r s1] t].
  cbn [res_of st_of tr_of fst snd] in *. subst r.
  cbn. reflexivity.
Qed.

Lemma frame_done (f : frame_input) (s : state) :
  done (st_of (frame f s)) = done (st_of (poll_events (pending f) s)).
Proof. rewrite frame_eq. reflexivity. Qed.

Lemma main_loop_done (fs : list frame_input) (s : state) :
  done s = true -> main_loop fs s = (Val tt, s, []).
Proof.
  intro Hd. destruct fs; cbn; unfold bind, get; now rewrite Hd.
Qed.

Lemma main_loop_nil (s : state) :
  done s = false -> main_loop [] s = (Stop StillRunning, s, []).
Proof. intro Hd. cbn. unfold bind, get. now rewrite Hd. Qed.

Lemma main_loop_cons (f : frame_input) (fs : list frame_input) (s : state) :
  done s = false ->
  main_loop (f :: fs) s =
  (res_of (main_loop fs (frame_state f s)),
   st_of (main_loop fs (frame_state f s)),
   tr_of (frame f s) ++ tr_of (main_loop fs (frame_state f s))).
Proof.
  intro Hd. cbn [main_loop]. unfold bind at 1. unfold get at 1. rewrite Hd.
  unfold bind. rewrite frame_eq. cbn [tr_of snd].
  destruct (main_loop fs (frame_state f s)) as [[r s'] t]. reflexivity.
Qed.

Lemma terminating_kind (u : ui UI) (e : SDL_Event) :
  terminating u e -> termination_kind e.
Proof.
  intros [Hq | Hk Hs _ | Hw He Hi]; unfold termination_kind; auto.
Qed.

Lemma app_state_done (s : state) :
  app_state_of s = TERMINATED <-> done s = true.
Proof. unfold app_state_of. destruct (done s); split; congruence. Qed.

Lemma app_state_running (s : state) :
  app_state_of s = RUNNING <-> done s = false.
Proof. unfold app_state_of. destruct (done s); split; congruence. Qed.

Lemma frame_terminated (f : frame_input) (s : state) :
  done s = false ->
  done (st_of (frame f s)) = true <-> polls_terminating (io s) (pending f).
Proof.
  intro Hd. rewrite frame_done, poll_events_done, Hd.
  split; [intros [H | H]; [discriminate | exact H] | now right].
Qed.

Lemma main_loop_last_frame (f : frame_input) (fs : list frame_input)
    (s : state) :
  done s = false -> done (st_of (frame f s)) = true ->
  main_loop (f :: fs) s = frame f s.
Proof.
  intros Hd Hd'. rewrite main_loop_cons by assumption.
  rewrite frame_eq in Hd'. cbn [st_of fst snd] in Hd'.
  rewrite main_loop_done by assumption.
  cbn [res_of st_of tr_of fst snd]. rewrite app_nil_r.
  rewrite frame_eq. reflexivity.
Qed.

Lemma main_loop_keeps_running (fs : list frame_input) (s : state) :
  done s = false ->
  (forall f e, In f fs -> In e (pending f) -> ~ termination_kind e) ->
  res_of (main_loop fs s) = Stop StillRunning.
Proof.
  revert s. induction fs as [|f fs IH]; intros s Hd Hother.
  - now rewrite main_loop_nil.
  - rewrite main_loop_cons by assumption. cbn [res_of fst].
    apply IH.
    + destruct (done (frame_state f s)) eqn:Hd'; [exfalso | reflexivity].
      assert (Hf : done (st_of (frame f s)) = true)
        by now rewrite frame_eq.
      apply frame_terminated in Hf; [|assumption].
      destruct Hf as (q1 & e & q2 & Hq & Ht).
      apply (Hother f e); [now left | rewrite Hq; apply in_elt |].
      eapply terminating_kind, Ht.
    + intros f' e Hin. apply Hother. now right.
Qed.

(** ** The application loop as a state machine *)

(** C3. The application loop has two states, RUNNING and TERMINATED.  From
    RUNNING, handling one polled event leads to TERMINATED exactly when the
    event is a quit signal, an escape key press while the overlay does not
    want the keyboard, or a close signal for the application's window;
    TERMINATED is never left.  A poll cycle ends in TERMINATED exactly when
    it polled such an event, and then the loop ends with that very
    iteration; in particular an escape press without overlay keyboard focus
    ends the loop within its poll cycle.  Without such an event the loop
    keeps running, whatever else is polled. *)
Theorem C3_loop_terminates_exactly_on_quit_escape_close
    (f : frame_input) (fs : list frame_input) (s : state)
    (Hrunning : app_state_of s = RUNNING) :
  (forall e,
     app_state_of (st_of (handle_event e s)) = TERMINATED <->
     terminating (ProcessEvent UI (io s) e) e)
  /\ (forall e s0,
        app_state_of s0 = TERMINATED ->
        app_state_of (st_of (handle_event e s0)) = TERMINATED)
  /\ (app_state_of (st_of (frame f s)) = TERMINATED <->
      polls_terminating (io s) (pending f))
  /\ (app_state_of (st_of (frame f s)) = TERMINATED ->
      main_loop (f :: fs) s = (Val tt, st_of (frame f s), tr_of (frame f s)))
  /\ (app_state_of (st_of (frame f s)) = RUNNING ->
      res_of (main_loop [f] s) = Stop StillRunning)
  /\ (forall q1 e q2,
        pending f = q1 ++ e :: q2 ->
        type e = SDL_KEYDOWN -> key_keysym_sym e = SDLK_ESCAPE ->
        WantCaptureKeyboard UI (overlay_after (io s) (q1 ++ [e])) = false ->
        main_loop (f :: fs) s = (Val tt, st_of (frame f s), tr_of (frame f s)))
  /\ (forall fs',
        (forall f' e, In f' fs' -> In e (pending f') -> ~ termination_kind e) ->
        res_of (main_loop fs' s) = Stop StillRunning).
Proof.
  apply app_state_running in Hrunning.
  assert (Hlast : done (st_of (frame f s)) = true ->
                  main_loop (f :: fs) s
                  = (Val tt, st_of (frame f s), tr_of (frame f s))).
  { intro Hd. rewrite main_loop_last_frame by assumption.
    now rewrite frame_eq. }
  repeat split.
  - intro Ht. apply app_state_done, handle_event_done in Ht.
    destruct Ht as [Hd | Ht]; [congruence | exact Ht].
  - intro Ht. apply app_state_done, handle_event_done. now right.
  - intros e s0 Ht. apply app_state_done, handle_event_done. left.
    now apply app_state_done.
  - intro Ht. apply app_state_done in Ht. now apply frame_terminated in Ht.
  - intro Ht. apply app_state_done. now apply frame_terminated.
  - intro Ht. apply Hlast. now apply app_state_done.
  - intro Hr. apply app_state_running in Hr.
    rewrite main_loop_cons by assumption. cbn [res_of fst].
    rewrite main_loop_nil; [reflexivity|]. now rewrite frame_eq in Hr.
  - intros q1 e q2 Hq Hty Hsym Hfocus. apply Hlast.
    apply frame_terminated; [assumption|].
    exists q1, e, q2. split; [exact Hq|].
    now apply escape_without_focus.
  - intros fs' Hother. now apply main_loop_keeps_running.
Qed.

(** ** Event forwarding *)

Lemma poll_events_trace_last (q : list SDL_Event) (s : state) :
  tr_of (poll_events q s) <> [].
Proof.
  destruct q; [discriminate | rewrite poll_events_cons; discriminate].
Qed.

Lemma poll_events_split (q1 : list SDL_Event) (e : SDL_Event)
    (q2 : list SDL_Event) (s : state) :
  tr_of (poll_events (q1 ++ e :: q2) s) =
  removelast (tr_of (poll_events q1 s))
  ++ SDL_PollEvent (Some e)
     :: tr_of (handle_event e (st_of (poll_events q1 s)))
     ++ tr_of (poll_events q2
                 (st_of (handle_event e (st_of (poll_events q1 s))))).
Proof.
  revert s. induction q1 as [|a q1 IH]; intro s.
  - cbn [app]. rewrite poll_events_cons. reflexivity.
  - cbn [app]. rewrite !poll_events_cons. cbn [tr_of st_of fst snd].
    rewrite IH.
    change (SDL_PollEvent (Some a)
            :: tr_of (handle_event a s)
               ++ tr_of (poll_events q1 (st_of (handle_event a s))))
      with ((SDL_PollEvent (Some a) :: tr_of (handle_event a s))
            ++ tr_of (poll_events q1 (st_of (handle_event a s)))).
    rewrite removelast_app by apply poll_events_trace_last.
    rewrite <- app_assoc. reflexivity.
Qed.

Lemma poll_events_forwards (q : list SDL_Event) (s : state) :
  filter is_overlay_forward (tr_of (poll_events q s))
  = map ImGui_ImplSDL2_ProcessEvent q.
Proof.
  revert s. induction q as [|e q IH]; intro s.
  - reflexivity.
  - rewrite poll_events_cons. cbn [tr_of snd].
    rewrite handle_event_eq at 1. cbn [tr_of snd filter is_overlay_forward].
    rewrite filter_app, IH. now case_ifs.
Qed.

(** C7. In every iteration every pending event is handed to the UI overlay
    before the application handles it: the overlay call is the first call
    made for the event, the application's decisions read the overlay state
    that call left, and the overlay calls of a poll cycle are the pending
    events in order.  The camera's mouse handler is called for an event if
    and only if the event is a pointer-motion or scroll event and the
    overlay does not capture the mouse.  Each pending event of an iteration
    is handled this way, in the state its predecessors left, and the rest
    of the iteration makes no event-handling call. *)
Theorem C7_events_reach_overlay_first_camera_iff_uncaptured_pointer
    (f : frame_input) (e : SDL_Event) (s : state) :
  (exists rest,
     tr_of (handle_event e s) = ImGui_ImplSDL2_ProcessEvent e :: rest
     /\ forall c, In c rest -> c = ArcballCamera_mouse e lit_0_016f)
  /\ io (st_of (handle_event e s)) = ProcessEvent UI (io s) e
  /\ ((exists dt, In (ArcballCamera_mouse e dt) (tr_of (handle_event e s)))
      <-> pointer_event e
          /\ WantCaptureMouse UI (ProcessEvent UI (io s) e) = false)
  /\ (pointer_event e
      /\ WantCaptureMouse UI (ProcessEvent UI (io s) e) = false ->
      camera (st_of (handle_event e s)) = mouse CAM (camera s) e lit_0_016f)
  /\ (~ (pointer_event e
         /\ WantCaptureMouse UI (ProcessEvent UI (io s) e) = false) ->
      camera (st_of (handle_event e s)) = camera s)
  /\ filter is_overlay_forward (tr_of (poll_events (pending f) s))
     = map ImGui_ImplSDL2_ProcessEvent (pending f)
  /\ (forall q1 q2,
        pending f = q1 ++ e :: q2 ->
        let s1 := st_of (poll_events q1 s) in
        tr_of (poll_events (pending f) s) =
        removelast (tr_of (poll_events q1 s))
        ++ SDL_PollEvent (Some e)
           :: tr_of (handle_event e s1)
           ++ tr_of (poll_events q2 (st_of (handle_event e s1))))
  /\ (exists rest,
        tr_of (frame f s) = tr_of (poll_events (pending f) s) ++ rest
        /\ filter is_event_handling rest = []).
Proof.
  assert (Hcond :
    negb (WantCaptureMouse UI (ProcessEvent UI (io s) e))
    && ((type e =? SDL_MOUSEMOTION) || (type e =? SDL_MOUSEWHEEL)) = true
    <-> pointer_event e
        /\ WantCaptureMouse UI (ProcessEvent UI (io s) e) = false).
  { unfold pointer_event.
    rewrite andb_true_iff, orb_true_iff, negb_true_iff, !Z.eqb_eq. tauto. }
  assert (Hpoll :
    filter is_overlay_forward (tr_of (poll_events (pending f) s))
    = map ImGui_ImplSDL2_ProcessEvent (pending f))
    by apply poll_events_forwards.
  assert (Hsplit : forall q1 q2,
    pending f = q1 ++ e :: q2 ->
    let s1 := st_of (poll_events q1 s) in
    tr_of (poll_events (pending f) s) =
    removelast (tr_of (poll_events q1 s))
    ++ SDL_PollEvent (Some e)
       :: tr_of (handle_event e s1)
       ++ tr_of (poll_events q2 (st_of (handle_event e s1)))).
  { intros q1 q2 Hq. rewrite Hq. apply poll_events_split. }
  assert (Hrest : exists rest,
    tr_of (frame f s) = tr_of (poll_events (pending f) s) ++ rest
    /\ filter is_event_handling rest = []).
  { rewrite frame_eq. eexists. split; reflexivity. }
  rewrite handle_event_eq. cbn [tr_of st_of fst snd io camera].
  destruct (negb (WantCaptureMouse UI (ProcessEvent UI (io s) e))
            && ((type e =? SDL_MOUSEMOTION) || (type e =? SDL_MOUSEWHEEL)))
    eqn:Hc.
  - assert (Hp := proj1 Hcond eq_refl).
    split; [|split; [|split; [|split; [|split; [|split; [|split]]]]]];
      try assumption; try tauto; try reflexivity.
    + eexists. split; [reflexivity|]. intros c [<- | []]. reflexivity.
    + split; [intros _; exact Hp|]. intros _. eexists. right. left. reflexivity.
  - assert (Hp : ~ (pointer_event e
                    /\ WantCaptureMouse UI (ProcessEvent UI (io s) e) = false))
      by (intro H; apply Hcond in H; discriminate).
    split; [|split; [|split; [|split; [|split; [|split; [|split]]]]]];
      try assumption; try tauto; try reflexivity.
    + eexists. split; [reflexivity|]. intros c [].
    + split; [|tauto]. intros [dt [Hin | []]]. discriminate.
Qed.

(** ** Equations of the whole program *)

Lemma push_indices_eq (m : mesh_t) (idx : list Z) :
  push_indices m idx = idx ++ map vertex_index (indices m).
Proof.
  unfold push_indices. generalize (indices m) as l. intro l. revert idx.
  induction l as [|i l IH]; intro idx; cbn.
  - now rewrite app_nil_r.
  - rewrite IH, <- app_assoc. reflexivity.
Qed.

Lemma collect_indices_eq (ss : list shape_t) (idx : list Z) (s : state) :
  collect_indices ss idx s
  = (Val (idx ++ all_indices ss), s, map shape_line ss).
Proof.
  revert idx. induction ss as [|sh ss IH]; intro idx.
  - cbn. unfold pure, all_indices. cbn. now rewrite app_nil_r.
  - cbn [collect_indices]. unfold bind, emit. rewrite IH, push_indices_eq.
    unfold all_indices. cbn. now rewrite <- app_assoc.
Qed.

Lemma run_eq (inv : invocation) :
  run inv =
  if argc inv <? 2
  then (Val 1, [Print cout ("Usage: " +++ argv_at inv 0 +++ " <obj file>" +++ nl)])
  else if negb (SDL_Init_result env =? 0)
  then (Val (-1),
        [SDL_Init "SDL_INIT_EVERYTHING";
         Print cerr ("Failed to init SDL: " +++ SDL_GetError_text env +++ nl)])
  else if ogl_LoadFunctions_result env =? ogl_LOAD_FAILED
  then (Val 1,
        SDL_Init "SDL_INIT_EVERYTHING"
        :: window_calls
        ++ [Print cerr ("Failed to initialize OpenGL" +++ nl)])
  else
    let f := LoadObj_result env (argv_at inv 1) in
    if negb (err f =? "")%string
    then (Stop (Exit 1),
          startup_calls ++ load_calls inv
          ++ [Print cerr ("Error loading model: " +++ err f +++ nl)])
    else if negb (ret f)
    then (Stop (Exit 1),
          startup_calls ++ load_calls inv
          ++ [Print cerr ("Failed to load OBJ model '" +++ argv_at inv 1
                          +++ "', aborting" +++ nl)])
    else if negb (ospInit_result env =? OSP_NO_ERROR)
    then (Stop (Uncaught "Failed to init OSPRay"),
          startup_calls ++ load_calls inv ++ map shape_line (shapes f)
          ++ [ospInit; Print cout ("Failed to init OSPRay" +++ nl)])
    else
      let L := main_loop (frames env) init_state in
      (after_loop (res_of L),
       startup_calls ++ load_calls inv ++ map shape_line (shapes f)
       ++ ospInit
          :: geometry_calls (vertices (attrib f)) (all_indices (shapes f))
          ++ renderer_calls init_state ++ display_calls
          ++ tr_of L ++ after_loop_calls (res_of L)).
Proof.
  unfold run, main.
  destruct (argc inv <? 2); [reflexivity|].
  unfold bind at 1. unfold emit at 1.
  destruct (negb (SDL_Init_result env =? 0)); [reflexivity|].
  unfold bind at 1. unfold emits at 1.
  destruct (ogl_LoadFunctions_result env =? ogl_LOAD_FAILED).
  { reflexivity. }
  unfold bind at 1. unfold emits at 1.
  unfold bind at 1. unfold run_app, load_calls, startup_calls.
  unfold bind at 1. unfold emit at 1.
  unfold bind at 1. unfold emit at 1.
  unfold bind at 1. unfold when.
  cbv zeta.
  destruct (negb (warn (LoadObj_result env (argv_at inv 1)) =? "")%string);
    unfold emit at 1; unfold pure at 1;
    (unfold bind at 1;
     destruct (negb (err (LoadObj_result env (argv_at inv 1)) =? "")%string);
     [ unfold bind, emit, stop; cbn [app];
       rewrite <- !app_assoc; reflexivity |];
     unfold pure at 1; unfold bind at 1;
     destruct (negb (ret (LoadObj_result env (argv_at inv 1))));
     [ unfold bind, emit, stop; cbn [app];
       rewrite <- !app_assoc; reflexivity |];
     unfold pure at 1; unfold bind at 1;
     rewrite collect_indices_eq; cbn [app];
     unfold bind at 1; unfold emit at 1;
     unfold bind at 1;
     destruct (negb (ospInit_result env =? OSP_NO_ERROR));
     [ unfold bind, emit, stop; cbn [app];
       rewrite <- !app_assoc; reflexivity |];
     unfold pure at 1; unfold bind at 1; unfold setup_scene;
     unfold bind at 1; unfold emits at 1;
     unfold bind at 1; unfold get at 1;
     unfold bind at 1; unfold emits at 1; unfold emits at 1;
     unfold bind at 1; unfold set_done at 1;
     change (mk_state (io init_state) (camera init_state) false)
       with init_state;
     destruct (main_loop (frames env) init_state) as [[[u|h] s'] t];
     cbn [res_of tr_of fst snd after_loop after_loop_calls];
     unfold bind, emits, pure; cbn [app];
     rewrite ?app_nil_r, <- ?app_assoc; cbn [app];
     rewrite <- ?app_assoc; reflexivity).
Qed.

(** ** Command line and start-up errors *)

(** C4. Invoked with an argument count below 2, the program prints the
    usage line, which contains the program name [argv[0]], to standard
    output and returns 1 from [main]: exit status 1.  It makes no other
    call: no window, no model load, no rendering. *)
Theorem C4_missing_argument_prints_usage_and_exits_1
    (inv : invocation) (Hargc : argc inv < 2) :
  outcome inv = Val 1
  /\ exit_status (outcome inv) = Some 1
  /\ trace inv
     = [Print cout ("Usage: " +++ argv0 inv +++ " <obj file>" +++ nl)]
  /\ contains ("Usage: " +++ argv0 inv +++ " <obj file>" +++ nl) (argv0 inv)
  /\ filter is_window_load_or_render (trace inv) = [].
Proof.
  unfold outcome, trace. rewrite run_eq.
  apply Z.ltb_lt in Hargc. rewrite Hargc. cbn.
  repeat split.
  exists "Usage: ", (" <obj file>" +++ nl). reflexivity.
Qed.

Lemma reaches_run_app (inv : invocation) :
  2 <= argc inv -> SDL_Init_result env = 0 ->
  ogl_LoadFunctions_result env <> ogl_LOAD_FAILED ->
  run inv =
    let f := LoadObj_result env (argv_at inv 1) in
    if negb (err f =? "")%string
    then (Stop (Exit 1),
          startup_calls ++ load_calls inv
          ++ [Print cerr ("Error loading model: " +++ err f +++ nl)])
    else if negb (ret f)
    then (Stop (Exit 1),
          startup_calls ++ load_calls inv
          ++ [Print cerr ("Failed to load OBJ model '" +++ argv_at inv 1
                          +++ "', aborting" +++ nl)])
    else if negb (ospInit_result env =? OSP_NO_ERROR)
    then (Stop (Uncaught "Failed to init OSPRay"),
          startup_calls ++ load_calls inv ++ map shape_line (shapes f)
          ++ [ospInit; Print cout ("Failed to init OSPRay" +++ nl)])
    else
      let L := main_loop (frames env) init_state in
      (after_loop (res_of L),
       startup_calls ++ load_calls inv ++ map shape_line (shapes f)
       ++ ospInit
          :: geometry_calls (vertices (attrib f)) (all_indices (shapes f))
          ++ renderer_calls init_state ++ display_calls
          ++ tr_of L ++ after_loop_calls (res_of L)).
Proof.
  intros Hargc Hsdl Hogl. rewrite run_eq.
  apply Z.ltb_ge in Hargc. rewrite Hargc.
  apply Z.eqb_eq in Hsdl. rewrite Hsdl.
  apply Z.eqb_neq in Hogl. rewrite Hogl. reflexivity.
Qed.

(** ** Filtering traces *)

Lemma filter_none {A} (p : A -> bool) (l : list A) :
  forallb (fun a => negb (p a)) l = true -> filter p l = [].
Proof.
  induction l as [|a l IH]; [reflexivity|].
  cbn. destruct (p a); [discriminate|]. exact IH.
Qed.

Lemma filter_skip {A} (p : A -> bool) (a : A) (l : list A) :
  p a = false -> filter p (a :: l) = filter p l.
Proof. intro Ha. cbn. now rewrite Ha. Qed.

Lemma filter_keep {A} (p : A -> bool) (a : A) (l : list A) :
  p a = true -> filter p (a :: l) = a :: filter p l.
Proof. intro Ha. cbn. now rewrite Ha. Qed.

(** ** What the loop can call *)

Lemma poll_events_calls (q : list SDL_Event) (s : state) :
  forallb poll_call (tr_of (poll_events q s)) = true.
Proof.
  revert s. induction q as [|e q IH]; intro s.
  - reflexivity.
  - rewrite poll_events_cons. cbn [tr_of snd forallb poll_call].
    rewrite forallb_app, IH, handle_event_eq. cbn [tr_of snd].
    now case_ifs.
Qed.

Lemma forallb_weaken {A} (p r : A -> bool) (l : list A) :
  (forall a, p a = true -> r a = true) ->
  forallb p l = true -> forallb r l = true.
Proof.
  intros Hpr Hp. apply forallb_forall. intros a Ha.
  apply Hpr. now apply (proj1 (forallb_forall p l) Hp).
Qed.

Lemma frame_calls (f : frame_input) (s : state) :
  forallb loop_call (tr_of (frame f s)) = true.
Proof.
  rewrite frame_eq. cbn [tr_of snd]. rewrite forallb_app.
  apply andb_true_iff. split.
  - apply forallb_weaken with (p := poll_call); [|apply poll_events_calls].
    intros a Ha. unfold loop_call. now rewrite Ha.
  - reflexivity.
Qed.

Lemma main_loop_calls (fs : list frame_input) (s : state) :
  forallb loop_call (tr_of (main_loop fs s)) = true.
Proof.
  revert s. induction fs as [|f fs IH]; intro s;
    destruct (done s) eqn:Hd.
  - now rewrite main_loop_done.
  - now rewrite main_loop_nil.
  - now rewrite main_loop_done.
  - rewrite main_loop_cons by assumption. cbn [tr_of snd].
    now rewrite forallb_app, frame_calls, IH.
Qed.

Lemma main_loop_res (fs : list frame_input) (s : state) :
  res_of (main_loop fs s) = Val tt
  \/ res_of (main_loop fs s) = Stop StillRunning.
Proof.
  revert s. induction fs as [|f fs IH]; intro s;
    destruct (done s) eqn:Hd.
  - left. now rewrite main_loop_done.
  - right. now rewrite main_loop_nil.
  - left. now rewrite main_loop_done.
  - rewrite main_loop_cons by assumption. apply IH.
Qed.

Lemma main_loop_filter_nil (p : call -> bool) (fs : list frame_input)
    (s : state) :
  (forall c, loop_call c = true -> p c = false) ->
  filter p (tr_of (main_loop fs s)) = [].
Proof.
  intro Hp. pose proof (main_loop_calls fs s) as Hall.
  induction (tr_of (main_loop fs s)) as [|c t IH]; [reflexivity|].
  cbn in Hall. apply andb_true_iff in Hall as [Hc Ht].
  cbn. rewrite (Hp c Hc). now apply IH.
Qed.

(** ** Model loading *)

Lemma filter_shape_lines (p : call -> bool) (ss : list shape_t) :
  (forall text, p (Print cout text) = false) ->
  filter p (map shape_line ss) = [].
Proof.
  intro Hp. induction ss as [|sh ss IH]; [reflexivity|].
  cbn [map filter]. unfold shape_line at 1. now rewrite Hp.
Qed.

Lemma filter_load_calls (p : call -> bool) (inv : invocation) :
  (forall text, p (Print cout text) = false) ->
  (forall c z sz, p (ArcballCamera_ctor c z sz) = false) ->
  (forall path, p (tinyobj_LoadObj path) = false) ->
  filter p (load_calls inv) = [].
Proof.
  intros Hprint Hctor Hload. unfold load_calls. cbn [app filter].
  rewrite Hctor, Hload. case_ifs; cbn; now rewrite ?Hprint.
Qed.

Lemma filter_after_loop (p : call -> bool) (r : result unit) :
  filter p shutdown_calls = [] -> filter p (after_loop_calls r) = [].
Proof. intro Hp. now destruct r. Qed.

Lemma string_eqb_empty (s : string) :
  negb (s =? "")%string = false <-> s = "".
Proof. rewrite negb_false_iff. apply String.eqb_eq. Qed.







(** ** Initialisation failures *)

(** The two failures [main] itself checks are reported on standard error
    and give a non-zero exit status. *)
Lemma SDL_and_OpenGL_failures_go_to_stderr (inv : invocation) :
  2 <= argc inv ->
  (SDL_Init_result env <> 0 ->
   outcome inv = Val (-1)
   /\ exit_status (outcome inv) = Some 255
   /\ trace inv
      = [SDL_Init "SDL_INIT_EVERYTHING";
         Print cerr ("Failed to init SDL: " +++ SDL_GetError_text env +++ nl)])
  /\ (SDL_Init_result env = 0 ->
      ogl_LoadFunctions_result env = ogl_LOAD_FAILED ->
      outcome inv = Val 1
      /\ exit_status (outcome inv) = Some 1
      /\ filter is_stderr (trace inv)
         = [Print cerr ("Failed to initialize OpenGL" +++ nl)]).
Proof.
  intro Hargc. unfold outcome, trace. rewrite run_eq.
  apply Z.ltb_ge in Hargc. rewrite Hargc. split.
  - intro Hsdl. apply Z.eqb_neq in Hsdl. rewrite Hsdl. now cbn.
  - intros Hsdl Hogl. apply Z.eqb_eq in Hsdl, Hogl. rewrite Hsdl, Hogl.
    now cbn.
Qed.

(** C6, the OSPRay path.  When the window, the GL loader and the model load
    succeed and [ospInit] reports an error, the program writes "Failed to
    init OSPRay" to standard output, writes nothing to standard error, and
    throws an exception nobody catches; [ospInit] was called once. *)
Theorem C6_ospray_init_failure_is_written_to_stdout
    (inv : invocation)
    (Hargc : 2 <= argc inv)
    (Hsdl : SDL_Init_result env = 0)
    (Hogl : ogl_LoadFunctions_result env <> ogl_LOAD_FAILED)
    (Herr : err (LoadObj_result env (argv_at inv 1)) = "")
    (Hret : ret (LoadObj_result env (argv_at inv 1)) = true)
    (Hosp : ospInit_result env <> OSP_NO_ERROR) :
  outcome inv = Stop (Uncaught "Failed to init OSPRay")
  /\ exit_status (outcome inv) = None
  /\ In (Print cout ("Failed to init OSPRay" +++ nl)) (trace inv)
  /\ filter is_stderr (trace inv) = []
  /\ filter is_ospInit (trace inv) = [ospInit].
Proof.
  unfold outcome, trace.
  rewrite (reaches_run_app inv Hargc Hsdl Hogl). cbv zeta.
  apply string_eqb_empty in Herr. rewrite Herr.
  rewrite Hret. cbn [negb].
  apply Z.eqb_neq in Hosp. rewrite Hosp. cbn [negb fst snd exit_status].
  split; [reflexivity|]. split; [reflexivity|]. split; [|split].
  - apply in_or_app. right. apply in_or_app. right.
    apply in_or_app. right. cbn. auto.
  - rewrite !filter_app, filter_load_calls, filter_shape_lines;
      reflexivity.
  - rewrite !filter_app, filter_load_calls, filter_shape_lines;
      reflexivity.
Qed.

(** ** The geometry handed to the renderer *)

Lemma all_indices_length (ss : list shape_t) :
  Forall triangulated ss ->
  List.length (all_indices ss) = (3 * total_triangles ss)%nat.
Proof.
  unfold all_indices, total_triangles.
  induction 1 as [|sh ss Hsh _ IH]; [reflexivity|].
  cbn [map List.concat]. rewrite length_app, IH, length_map.
  unfold triangulated in Hsh.
  change (list_sum (triangle_count sh :: map triangle_count ss))
    with (triangle_count sh + list_sum (map triangle_count ss))%nat.
  change (triangle_count sh)
    with (List.length (indices (mesh sh)) / 3)%nat.
  apply Nat.Div0.div_exact in Hsh. lia.
Qed.

(** C2. For a model that loads successfully and whose shapes consist of
    triangles, [N] in total: the program creates exactly two data arrays.
    The index array holds the vertex indices of the shapes, shape after
    shape in file order, [3 * N] integers handed over as [N] triples; the
    vertex array is the loader's flat float sequence, its item count the
    length of that sequence divided by 3.  Both are attached to the
    triangle geometry. *)
Theorem C2_index_buffer_is_concatenation_of_3N_and_vertex_count
    (inv : invocation) (f : LoadObj_out)
    (Hargc : 2 <= argc inv)
    (Hsdl : SDL_Init_result env = 0)
    (Hogl : ogl_LoadFunctions_result env <> ogl_LOAD_FAILED)
    (Hf : LoadObj_result env (argv_at inv 1) = f)
    (Herr : err f = "")
    (Hret : ret f = true)
    (Hosp : ospInit_result env = OSP_NO_ERROR)
    (Htri : Forall triangulated (shapes f)) :
  let N := total_triangles (shapes f) in
  let idx := all_indices (shapes f) in
  let verts := vertices (attrib f) in
  filter is_new_data (trace inv)
  = [ospNewData verts_data (List.length verts / 3)%nat "OSP_FLOAT3"
       (float_array verts);
     ospNewData indices_data N "OSP_INT3" (int_array idx)]
  /\ List.length idx = (3 * N)%nat
  /\ In (ospSetObject geom "vertex" verts_data) (trace inv)
  /\ In (ospSetObject geom "index" indices_data) (trace inv).
Proof.
  intros N idx verts. unfold trace.
  rewrite (reaches_run_app inv Hargc Hsdl Hogl). cbv zeta. rewrite Hf.
  apply string_eqb_empty in Herr. rewrite Herr, Hret. cbn [negb].
  apply Z.eqb_eq in Hosp. rewrite Hosp. cbn [negb snd].
  fold idx verts.
  assert (Hlen : List.length idx = (3 * N)%nat)
    by now apply all_indices_length.
  assert (Hdiv : (List.length idx / 3)%nat = N).
  { rewrite Hlen, Nat.mul_comm. now apply Nat.div_mul. }
  split; [|split; [exact Hlen|]].
  - rewrite !filter_app.
    rewrite filter_load_calls, filter_shape_lines by reflexivity.
    rewrite (filter_none _ startup_calls) by reflexivity.
    rewrite filter_skip by reflexivity.
    rewrite !filter_app.
    rewrite (filter_none _ (renderer_calls _)) by reflexivity.
    rewrite (filter_none _ display_calls) by reflexivity.
    rewrite main_loop_filter_nil
      by (intros c Hc; destruct c; try reflexivity; discriminate).
    rewrite filter_after_loop by reflexivity.
    unfold geometry_calls. rewrite filter_keep by reflexivity.
    rewrite filter_skip by reflexivity.
    rewrite filter_keep by reflexivity.
    rewrite (filter_none _ (_ :: _)) by reflexivity.
    rewrite Hdiv. reflexivity.
  - split; apply in_or_app; right; apply in_or_app; right;
      apply in_or_app; right; apply in_cons; apply in_or_app; left;
      unfold geometry_calls; repeat first [apply in_eq | apply in_cons].
Qed.

(** ** The shape of a trace *)

Lemma app_cons_split {A} (a : A) (w o t : list A) :
  (a :: w ++ o) ++ t = (a :: w) ++ o ++ t.
Proof. cbn. now rewrite app_assoc. Qed.

Lemma app_split3 {A} (a b r : list A) (x : A) :
  a ++ b ++ x :: r = (a ++ b ++ [x]) ++ r.
Proof. now rewrite <- !app_assoc. Qed.

Lemma app_split4 {A} (a b c r : list A) (x : A) :
  a ++ b ++ c ++ x :: r = (a ++ b ++ c ++ [x]) ++ r.
Proof. now rewrite <- !app_assoc. Qed.

(** A run either stops during set-up, right after printing one message,
    or goes through the whole set-up, the loop and what follows it. *)
Lemma trace_shape (inv : invocation) :
  (exists before rest s text,
     setup_calls inv = before ++ rest
     /\ trace inv = before ++ [Print s text])
  \/ trace inv
     = setup_calls inv
       ++ tr_of (main_loop (frames env) init_state)
       ++ after_loop_calls (res_of (main_loop (frames env) init_state)).
Proof.
  unfold trace. rewrite run_eq. unfold setup_calls.
  destruct (argc inv <? 2).
  { left. exists [], (setup_calls inv), cout,
      ("Usage: " +++ argv_at inv 0 +++ " <obj file>" +++ nl).
    split; reflexivity. }
  destruct (negb (SDL_Init_result env =? 0)).
  { left.
    exists [SDL_Init "SDL_INIT_EVERYTHING"],
      ((window_calls ++ overlay_init_calls)
       ++ load_calls inv
       ++ map shape_line (shapes (LoadObj_result env (argv_at inv 1)))
       ++ ospInit
          :: geometry_calls
               (vertices (attrib (LoadObj_result env (argv_at inv 1))))
               (all_indices (shapes (LoadObj_result env (argv_at inv 1))))
          ++ renderer_calls init_state ++ display_calls),
      cerr, ("Failed to init SDL: " +++ SDL_GetError_text env +++ nl).
    split; reflexivity. }
  destruct (ogl_LoadFunctions_result env =? ogl_LOAD_FAILED).
  { left.
    exists (SDL_Init "SDL_INIT_EVERYTHING" :: window_calls),
      (overlay_init_calls
       ++ load_calls inv
       ++ map shape_line (shapes (LoadObj_result env (argv_at inv 1)))
       ++ ospInit
          :: geometry_calls
               (vertices (attrib (LoadObj_result env (argv_at inv 1))))
               (all_indices (shapes (LoadObj_result env (argv_at inv 1))))
          ++ renderer_calls init_state ++ display_calls),
      cerr, ("Failed to initialize OpenGL" +++ nl).
    split; [apply app_cons_split | reflexivity]. }
  cbv zeta.
  destruct (negb (err (LoadObj_result env (argv_at inv 1)) =? "")%string).
  { left.
    exists (startup_calls ++ load_calls inv),
      (map shape_line (shapes (LoadObj_result env (argv_at inv 1)))
       ++ ospInit
          :: geometry_calls
               (vertices (attrib (LoadObj_result env (argv_at inv 1))))
               (all_indices (shapes (LoadObj_result env (argv_at inv 1))))
          ++ renderer_calls init_state ++ display_calls),
      cerr,
      ("Error loading model: "
       +++ err (LoadObj_result env (argv_at inv 1)) +++ nl).
    split; [apply app_assoc | cbn [snd]; apply app_assoc]. }
  destruct (negb (ret (LoadObj_result env (argv_at inv 1)))).
  { left.
    exists (startup_calls ++ load_calls inv),
      (map shape_line (shapes (LoadObj_result env (argv_at inv 1)))
       ++ ospInit
          :: geometry_calls
               (vertices (attrib (LoadObj_result env (argv_at inv 1))))
               (all_indices (shapes (LoadObj_result env (argv_at inv 1))))
          ++ renderer_calls init_state ++ display_calls),
      cerr,
      ("Failed to load OBJ model '" +++ argv_at inv 1
       +++ "', aborting" +++ nl).
    split; [apply app_assoc | cbn [snd]; apply app_assoc]. }
  destruct (negb (ospInit_result env =? OSP_NO_ERROR)).
  { left.
    exists (startup_calls ++ load_calls inv
            ++ map shape_line (shapes (LoadObj_result env (argv_at inv 1)))
            ++ [ospInit]),
      (geometry_calls
         (vertices (attrib (LoadObj_result env (argv_at inv 1))))
         (all_indices (shapes (LoadObj_result env (argv_at inv 1))))
       ++ renderer_calls init_state ++ display_calls),
      cout, ("Failed to init OSPRay" +++ nl).
    split; [apply app_split4 | cbn [snd]; apply app_split4]. }
  right. cbn [snd].
  rewrite (app_split4 startup_calls), (app_split4 startup_calls (load_calls inv)
    (map shape_line (shapes (LoadObj_result env (argv_at inv 1)))) _ ospInit)
    at 1.
  rewrite <- !app_assoc. reflexivity.
Qed.

Lemma firstn_length_app {A} (a b : list A) :
  firstn (List.length a) (a ++ b) = a.
Proof. induction a as [|x a IH]; [reflexivity|]. cbn. now rewrite IH. Qed.

Lemma filter_app_nil {A} (p : A -> bool) (a b : list A) :
  filter p (a ++ b) = [] -> filter p a = [].
Proof. rewrite filter_app. intro H. now apply app_eq_nil in H. Qed.


Lemma setup_filter_none (p : call -> bool) (inv : invocation) :
  (forall text, p (Print cout text) = false) ->
  (forall c z sz, p (ArcballCamera_ctor c z sz) = false) ->
  (forall path, p (tinyobj_LoadObj path) = false) ->
  p ospInit = false ->
  forallb (fun c => negb (p c)) startup_calls = true ->
  (forall v i, forallb (fun c => negb (p c)) (geometry_calls v i) = true) ->
  forallb (fun c => negb (p c)) (renderer_calls init_state) = true ->
  forallb (fun c => negb (p c)) display_calls = true ->
  filter p (setup_calls inv) = [].
Proof.
  intros Hprint Hctor Hload Hosp Hstart Hgeom Hrend Hdisp.
  unfold setup_calls. rewrite !filter_app.
  rewrite filter_load_calls, filter_shape_lines by assumption.
  rewrite filter_skip by assumption. rewrite !filter_app.
  rewrite (filter_none _ startup_calls) by assumption.
  rewrite (filter_none _ (geometry_calls _ _)) by apply Hgeom.
  rewrite (filter_none _ (renderer_calls _)) by assumption.
  rewrite (filter_none _ display_calls) by assumption.
  reflexivity.
Qed.



Lemma setup_no_camera_call (inv : invocation) :
  filter is_camera_mouse (setup_calls inv) = [].
Proof. now apply setup_filter_none. Qed.

Lemma setup_unrelated (inv : invocation) :
  filter fb_related (setup_calls inv) = [].
Proof. now apply setup_filter_none. Qed.

(** ** Fixed resolution *)

Lemma frame_filter (p : call -> bool) (f : frame_input) (s : state) :
  (forall c, poll_call c = true -> p c = false) ->
  filter p (tr_of (frame f s))
  = filter p
      ([ImGui_ImplOpenGL3_NewFrame; ImGui_ImplSDL2_NewFrame; ImGui_NewFrame]
       ++ overlay_calls (frame_state f s)
       ++ render_calls (frame_state f s)
       ++ ospMapFrameBuffer osp_fb "OSP_FB_COLOR" (fb_pointer f)
          :: blit_calls (fb_pointer f)).
Proof.
  intro Hp. rewrite frame_eq. cbn [tr_of snd]. rewrite filter_app.
  replace (filter p (tr_of (poll_events (pending f) s))) with (@nil call);
    [reflexivity|].
  pose proof (poll_events_calls (pending f) s) as Hall.
  induction (tr_of (poll_events (pending f) s)) as [|c t IH]; [reflexivity|].
  cbn in Hall. apply andb_true_iff in Hall as [Hc Ht].
  cbn. rewrite (Hp c Hc). now apply IH.
Qed.



(** ** The frame-buffer mapping *)

Lemma fb_protocol_app (a : fb_access) (t1 t2 : list call) :
  fb_protocol a (t1 ++ t2)
  = match fb_protocol a t1 with
    | Some a' => fb_protocol a' t2
    | None => None
    end.
Proof.
  revert a. induction t1 as [|c t1 IH]; intro a; [reflexivity|].
  cbn. destruct (fb_step a c); [apply IH | reflexivity].
Qed.

Lemma fb_protocol_unrelated (a : fb_access) (t : list call) :
  filter fb_related t = [] -> fb_protocol a t = Some a.
Proof.
  induction t as [|c t IH]; [reflexivity|].
  cbn [filter]. destruct (fb_related c) eqn:Hc; [discriminate|].
  intro Ht. cbn. destruct c; try discriminate Hc; now apply IH.
Qed.

Lemma poll_events_unrelated (q : list SDL_Event) (s : state) :
  filter fb_related (tr_of (poll_events q s)) = [].
Proof.
  pose proof (poll_events_calls q s) as Hall.
  induction (tr_of (poll_events q s)) as [|c t IH]; [reflexivity|].
  cbn in Hall. apply andb_true_iff in Hall as [Hc Ht].
  cbn. destruct c; try discriminate Hc; now apply IH.
Qed.

Lemma frame_protocol (f : frame_input) (s : state) :
  fb_protocol Unmapped (tr_of (frame f s)) = Some Unmapped.
Proof.
  rewrite frame_eq. cbn [tr_of snd].
  rewrite fb_protocol_app.
  rewrite fb_protocol_unrelated by apply poll_events_unrelated.
  cbn. now rewrite !Z.eqb_refl.
Qed.

Lemma main_loop_protocol (fs : list frame_input) (s : state) :
  fb_protocol Unmapped (tr_of (main_loop fs s)) = Some Unmapped.
Proof.
  revert s. induction fs as [|f fs IH]; intro s;
    destruct (done s) eqn:Hd.
  - now rewrite main_loop_done.
  - now rewrite main_loop_nil.
  - now rewrite main_loop_done.
  - rewrite main_loop_cons by assumption. cbn [tr_of snd].
    now rewrite fb_protocol_app, frame_protocol, IH.
Qed.

(** C10. In every iteration the frame buffer is mapped once, read once, by
    the texture upload and through the pointer the mapping returned, and
    unmapped, in this order, after the render call and before the UI draw
    and the buffer swap.  Over a whole run every mapping is read once and
    closed with its own pointer before the next clear, render, UI draw,
    swap or mapping, no upload happens outside a mapping, and no mapping
    is open when the run ends or stops. *)
Theorem C10_frame_buffer_mapped_read_unmapped_once_per_iteration
    (inv : invocation) (f : frame_input) (s : state) :
  filter fb_related (tr_of (frame f s))
  = [ospFrameBufferClear osp_fb "OSP_FB_COLOR";
     ospRenderFrame osp_fb renderer "OSP_FB_COLOR";
     ospMapFrameBuffer osp_fb "OSP_FB_COLOR" (fb_pointer f);
     glTexSubImage2D "GL_TEXTURE_2D" 0 0 0 1280 720 "GL_RGBA"
       "GL_UNSIGNED_BYTE" (fb_pointer f);
     ospUnmapFrameBuffer (fb_pointer f) osp_fb;
     ImGui_ImplOpenGL3_RenderDrawData;
     SDL_GL_SwapWindow]
  /\ fb_protocol Unmapped (tr_of (frame f s)) = Some Unmapped
  /\ fb_protocol Unmapped (trace inv) = Some Unmapped.
Proof.
  split; [|split].
  - rewrite frame_filter by (intros c Hc; destruct c; easy). reflexivity.
  - apply frame_protocol.
  - destruct (trace_shape inv)
      as [(before & rest & st & text & Hsetup & Htrace) | Htrace];
      rewrite Htrace.
    + apply fb_protocol_unrelated. rewrite filter_app.
      pose proof (setup_unrelated inv) as Hun. rewrite Hsetup in Hun.
      apply filter_app_nil in Hun. now rewrite Hun.
    + rewrite fb_protocol_app.
      rewrite fb_protocol_unrelated by apply setup_unrelated.
      rewrite fb_protocol_app, main_loop_protocol.
      apply fb_protocol_unrelated. now apply filter_after_loop.
Qed.

(** ** The camera's time step *)

Lemma camera_calls_use_the_literal (inv : invocation) (e : SDL_Event)
    (dt : f32) :
  In (ArcballCamera_mouse e dt) (trace inv) -> dt = lit_0_016f.
Proof.
  intro Hin.
  assert (Hf : In (ArcballCamera_mouse e dt)
                 (filter is_camera_mouse (trace inv)))
    by now apply filter_In.
  clear Hin. revert Hf.
  destruct (trace_shape inv)
    as [(before & rest & st & text & Hsetup & Htrace) | Htrace];
    rewrite Htrace.
  - pose proof (setup_no_camera_call inv) as Hno. rewrite Hsetup in Hno.
    apply filter_app_nil in Hno. rewrite filter_app, Hno.
    now rewrite (filter_none _ [Print st text]) by reflexivity.
  - rewrite !filter_app, setup_no_camera_call.
    rewrite filter_after_loop by reflexivity.
    rewrite app_nil_r. cbn [app].
    intro Hin. apply filter_In in Hin as [Hin _].
    pose proof (proj1 (forallb_forall _ _) (main_loop_calls _ _) _ Hin)
      as Hl.
    unfold loop_call in Hl. cbn in Hl. rewrite orb_false_r in Hl.
    now apply Z.eqb_eq.
Qed.

(** ** How a run ends *)

(** A run that gets through the set-up goes into the loop. *)
Lemma run_started (inv : invocation) :
  starts_up inv ->
  run inv
  = (after_loop (res_of (main_loop (frames env) init_state)),
     setup_calls inv
     ++ tr_of (main_loop (frames env) init_state)
     ++ after_loop_calls (res_of (main_loop (frames env) init_state))).
Proof.
  intros (Hargc & Hsdl & Hogl & Herr & Hret & Hosp).
  rewrite (reaches_run_app inv Hargc Hsdl Hogl). cbv zeta.
  apply string_eqb_empty in Herr. rewrite Herr, Hret. cbn [negb].
  apply Z.eqb_eq in Hosp. rewrite Hosp. cbn [negb].
  unfold setup_calls. f_equal.
  rewrite (app_split4 startup_calls),
    (app_split4 startup_calls (load_calls inv)
       (map shape_line (shapes (LoadObj_result env (argv_at inv 1)))) _
       ospInit) at 1.
  rewrite <- !app_assoc. reflexivity.
Qed.

(** A run that does not stops right after one message, with one of four
    results, none of them a return of 0. *)
Lemma run_not_started (inv : invocation) :
  ~ starts_up inv ->
  exists before rest s text r,
    setup_calls inv = before ++ rest
    /\ run inv = (r, before ++ [Print s text])
    /\ (r = Val 1 \/ r = Val (-1) \/ r = Stop (Exit 1)
        \/ r = Stop (Uncaught "Failed to init OSPRay")).
Proof.
  intro Hno. rewrite run_eq. unfold setup_calls.
  destruct (argc inv <? 2) eqn:Hargc.
  { exists [], (setup_calls inv), cout,
      ("Usage: " +++ argv_at inv 0 +++ " <obj file>" +++ nl), (Val 1).
    repeat split; auto. }
  destruct (negb (SDL_Init_result env =? 0)) eqn:Hsdl.
  { exists [SDL_Init "SDL_INIT_EVERYTHING"],
      ((window_calls ++ overlay_init_calls)
       ++ load_calls inv
       ++ map shape_line (shapes (LoadObj_result env (argv_at inv 1)))
       ++ ospInit
          :: geometry_calls
               (vertices (attrib (LoadObj_result env (argv_at inv 1))))
               (all_indices (shapes (LoadObj_result env (argv_at inv 1))))
          ++ renderer_calls init_state ++ display_calls),
      cerr, ("Failed to init SDL: " +++ SDL_GetError_text env +++ nl),
      (Val (-1)).
    repeat split; auto. }
  destruct (ogl_LoadFunctions_result env =? ogl_LOAD_FAILED) eqn:Hogl.
  { exists (SDL_Init "SDL_INIT_EVERYTHING" :: window_calls),
      (overlay_init_calls
       ++ load_calls inv
       ++ map shape_line (shapes (LoadObj_result env (argv_at inv 1)))
       ++ ospInit
          :: geometry_calls
               (vertices (attrib (LoadObj_result env (argv_at inv 1))))
               (all_indices (shapes (LoadObj_result env (argv_at inv 1))))
          ++ renderer_calls init_state ++ display_calls),
      cerr, ("Failed to initialize OpenGL" +++ nl), (Val 1).
    split; [apply app_cons_split|]. split; auto. }
  cbv zeta.
  destruct (negb (err (LoadObj_result env (argv_at inv 1)) =? "")%string)
    eqn:Herr.
  { exists (startup_calls ++ load_calls inv),
      (map shape_line (shapes (LoadObj_result env (argv_at inv 1)))
       ++ ospInit
          :: geometry_calls
               (vertices (attrib (LoadObj_result env (argv_at inv 1))))
               (all_indices (shapes (LoadObj_result env (argv_at inv 1))))
          ++ renderer_calls init_state ++ display_calls),
      cerr,
      ("Error loading model: "
       +++ err (LoadObj_result env (argv_at inv 1)) +++ nl),
      (Stop (Exit 1)).
    split; [apply app_assoc|]. split; [|auto].
    now rewrite <- app_assoc. }
  destruct (negb (ret (LoadObj_result env (argv_at inv 1)))) eqn:Hret.
  { exists (startup_calls ++ load_calls inv),
      (map shape_line (shapes (LoadObj_result env (argv_at inv 1)))
       ++ ospInit
          :: geometry_calls
               (vertices (attrib (LoadObj_result env (argv_at inv 1))))
               (all_indices (shapes (LoadObj_result env (argv_at inv 1))))
          ++ renderer_calls init_state ++ display_calls),
      cerr,
      ("Failed to load OBJ model '" +++ argv_at inv 1
       +++ "', aborting" +++ nl),
      (Stop (Exit 1)).
    split; [apply app_assoc|]. split; [|auto].
    now rewrite <- app_assoc. }
  destruct (negb (ospInit_result env =? OSP_NO_ERROR)) eqn:Hosp.
  { exists (startup_calls ++ load_calls inv
            ++ map shape_line (shapes (LoadObj_result env (argv_at inv 1)))
            ++ [ospInit]),
      (geometry_calls
         (vertices (attrib (LoadObj_result env (argv_at inv 1))))
         (all_indices (shapes (LoadObj_result env (argv_at inv 1))))
       ++ renderer_calls init_state ++ display_calls),
      cout, ("Failed to init OSPRay" +++ nl),
      (Stop (Uncaught "Failed to init OSPRay")).
    split; [apply app_split4|]. split; [|auto].
    now rewrite <- app_split4. }
  exfalso. apply Hno. unfold starts_up.
  apply Z.ltb_ge in Hargc. apply negb_false_iff, Z.eqb_eq in Hsdl.
  apply Z.eqb_neq in Hogl. apply string_eqb_empty in Herr.
  apply negb_false_iff in Hret. apply negb_false_iff, Z.eqb_eq in Hosp.
  auto 10.
Qed.

Lemma starts_up_dec (inv : invocation) : starts_up inv \/ ~ starts_up inv.
Proof.
  unfold starts_up.
  destruct (Z_le_gt_dec 2 (argc inv)); [|right; intros (H & _); lia].
  destruct (Z.eq_dec (SDL_Init_result env) 0);
    [|right; intros (_ & H & _); contradiction].
  destruct (Z.eq_dec (ogl_LoadFunctions_result env) ogl_LOAD_FAILED);
    [right; intros (_ & _ & H & _); contradiction|].
  destruct (string_dec (err (LoadObj_result env (argv_at inv 1))) "");
    [|right; intros (_ & _ & _ & H & _); contradiction].
  destruct (ret (LoadObj_result env (argv_at inv 1))) eqn:Hret;
    [|right; intros (_ & _ & _ & _ & H & _); discriminate].
  destruct (Z.eq_dec (ospInit_result env) OSP_NO_ERROR);
    [|right; intros (_ & _ & _ & _ & _ & H); contradiction].
  left. auto 10.
Qed.

Lemma setup_no_teardown (inv : invocation) :
  filter is_teardown (setup_calls inv) = [].
Proof. now apply setup_filter_none. Qed.

Lemma main_loop_ended_by_event (fs : list frame_input) (s : state) :
  done s = false -> res_of (main_loop fs s) = Val tt ->
  exists f e, In f fs /\ In e (pending f) /\ termination_kind e.
Proof.
  revert s. induction fs as [|f fs IH]; intros s Hd Hres.
  - rewrite main_loop_nil in Hres by assumption. discriminate.
  - rewrite main_loop_cons in Hres by assumption. cbn [res_of fst] in Hres.
    destruct (done (frame_state f s)) eqn:Hd'.
    + assert (Hf : done (st_of (frame f s)) = true) by now rewrite frame_eq.
      apply frame_terminated in Hf; [|assumption].
      destruct Hf as (q1 & e & q2 & Hq & Ht).
      exists f, e. split; [now left|]. split.
      * rewrite Hq. apply in_elt.
      * eapply terminating_kind, Ht.
    + destruct (IH _ Hd' Hres) as (f' & e & Hf' & He & Hk).
      exists f', e. split; [now right|]. now split.
Qed.

(** The resources [main] acquired are released only on the way out of a
    run that returns 0: then the trace ends with the six shutdown calls of
    lines 92-98 and has no other; a run that ends any other way, also after
    the window and its GL context were created, makes none of them. *)
Theorem teardown_only_when_main_returns_0 (inv : invocation) :
  (outcome inv = Val 0
   /\ exists t, trace inv = t ++ shutdown_calls /\ filter is_teardown t = [])
  \/ (outcome inv <> Val 0 /\ filter is_teardown (trace inv) = []).
Proof.
  unfold outcome, trace.
  destruct (starts_up_dec inv) as [Hup | Hno].
  - rewrite (run_started inv Hup). cbn [fst snd].
    destruct (main_loop_res (frames env) init_state) as [Hres | Hres];
      rewrite Hres; cbn [after_loop after_loop_calls].
    + left. split; [reflexivity|].
      exists (setup_calls inv ++ tr_of (main_loop (frames env) init_state)).
      split; [now rewrite app_assoc|].
      rewrite filter_app, setup_no_teardown.
      apply main_loop_filter_nil.
      intros c Hc. destruct c; try reflexivity; discriminate.
    + right. split; [discriminate|].
      rewrite !filter_app, setup_no_teardown.
      rewrite main_loop_filter_nil; [reflexivity|].
      intros c Hc. destruct c; try reflexivity; discriminate.
  - destruct (run_not_started inv Hno)
      as (before & rest & st & text & r & Hsetup & Hrun & Hr).
    rewrite Hrun. cbn [fst snd]. right. split.
    + destruct Hr as [-> | [-> | [-> | ->]]]; discriminate.
    + pose proof (setup_no_teardown inv) as Hnone.
      rewrite Hsetup in Hnone. apply filter_app_nil in Hnone.
      rewrite filter_app, Hnone. reflexivity.
Qed.

(** [main] returns 0 exactly when the set-up succeeded and the loop ended,
    and the loop ends only because some polled event was a quit signal, an
    escape key press or a close signal of the window.  Otherwise the run
    ends with 1, -1, [exit(1)] or the uncaught OSPRay exception, or is
    still in the loop when the recorded input is used up. *)
Theorem main_returns_0_iff_setup_succeeded_and_loop_ended
    (inv : invocation) :
  (outcome inv = Val 0 <->
   starts_up inv /\ res_of (main_loop (frames env) init_state) = Val tt)
  /\ (outcome inv = Stop StillRunning <->
      starts_up inv
      /\ res_of (main_loop (frames env) init_state) = Stop StillRunning)
  /\ (outcome inv = Val 0 ->
      exists f e,
        In f (frames env) /\ In e (pending f) /\ termination_kind e)
  /\ (outcome inv = Val 0 \/ outcome inv = Stop StillRunning
      \/ outcome inv = Val 1 \/ outcome inv = Val (-1)
      \/ outcome inv = Stop (Exit 1)
      \/ outcome inv = Stop (Uncaught "Failed to init OSPRay")).
Proof.
  unfold outcome.
  destruct (starts_up_dec inv) as [Hup | Hno].
  - rewrite (run_started inv Hup). cbn [fst].
    destruct (main_loop_res (frames env) init_state) as [Hres | Hres].
    + rewrite Hres. cbn [after_loop].
      split; [tauto|]. split; [split; [discriminate|]|].
      { intros [_ H]. discriminate. }
      split; [|auto].
      intros _. now apply (main_loop_ended_by_event _ init_state).
    + rewrite Hres. cbn [after_loop].
      split; [split; [discriminate | intros [_ H]; discriminate]|].
      split; [tauto|]. split; [discriminate | auto].
  - destruct (run_not_started inv Hno)
      as (before & rest & st & text & r & Hsetup & Hrun & Hr).
    rewrite Hrun. cbn [fst].
    destruct Hr as [-> | [-> | [-> | ->]]];
      (split; [split; [discriminate | tauto]|]);
      (split; [split; [discriminate | tauto]|]);
      (split; [discriminate | auto 8]).
Qed.

(** A model that fails to load ends the run after the window was created
    and before anything of OSPRay is touched: the loader is called once,
    the window exists, no OSPRay call is made and no shape is announced. *)
Theorem load_failure_comes_after_the_window_and_before_ospray
    (inv : invocation)
    (Hargc : 2 <= argc inv)
    (Hsdl : SDL_Init_result env = 0)
    (Hogl : ogl_LoadFunctions_result env <> ogl_LOAD_FAILED)
    (Hfail : err (LoadObj_result env (argv_at inv 1)) <> ""
             \/ ret (LoadObj_result env (argv_at inv 1)) = false) :
  outcome inv = Stop (Exit 1)
  /\ filter is_window_creation (trace inv)
     = [SDL_CreateWindow "rtobj" "SDL_WINDOWPOS_CENTERED"
          "SDL_WINDOWPOS_CENTERED" 1280 720
          "SDL_WINDOW_OPENGL | SDL_WINDOW_RESIZABLE"]
  /\ filter is_ospray (trace inv) = []
  /\ exists message,
       trace inv = startup_calls ++ load_calls inv ++ [Print cerr message].
Proof.
  unfold outcome, trace.
  rewrite (reaches_run_app inv Hargc Hsdl Hogl). cbv zeta.
  assert (Hwin : forall m,
    filter is_window_creation
      (startup_calls ++ load_calls inv ++ [Print cerr m])
    = [SDL_CreateWindow "rtobj" "SDL_WINDOWPOS_CENTERED"
         "SDL_WINDOWPOS_CENTERED" 1280 720
         "SDL_WINDOW_OPENGL | SDL_WINDOW_RESIZABLE"]).
  { intro m. rewrite !filter_app, filter_load_calls by reflexivity.
    reflexivity. }
  assert (Hosp : forall m,
    filter is_ospray (startup_calls ++ load_calls inv ++ [Print cerr m])
    = []).
  { intro m. rewrite !filter_app, filter_load_calls by reflexivity.
    reflexivity. }
  destruct (negb (err (LoadObj_result env (argv_at inv 1)) =? "")%string)
    eqn:Herr.
  { cbn [fst snd]. repeat split; auto. eexists. reflexivity. }
  apply string_eqb_empty in Herr.
  destruct Hfail as [Hfail | Hfail]; [contradiction|].
  rewrite Hfail. cbn [negb fst snd]. repeat split; auto.
  eexists. reflexivity.
Qed.

(** ** The loop over several frames *)

(** Input recorded after the loop has ended is never looked at, and a loop
    that is still running goes on, from the state it reached, with the
    input that follows. *)
Theorem main_loop_app (fs more : list frame_input) (s : state) :
  main_loop (fs ++ more) s
  = match res_of (main_loop fs s) with
    | Val _ => main_loop fs s
    | Stop _ =>
        (res_of (main_loop more (st_of (main_loop fs s))),
         st_of (main_loop more (st_of (main_loop fs s))),
         tr_of (main_loop fs s)
         ++ tr_of (main_loop more (st_of (main_loop fs s))))
    end.
Proof.
  revert s. induction fs as [|f fs IH]; intro s;
    destruct (done s) eqn:Hd.
  - cbn [app]. rewrite (main_loop_done []) by assumption.
    cbn [res_of fst]. now apply main_loop_done.
  - cbn [app]. rewrite main_loop_nil by assumption.
    cbn [res_of st_of tr_of fst snd app].
    now destruct (main_loop more s) as [[r s'] t].
  - cbn [app]. rewrite (main_loop_done (f :: fs)) by assumption.
    cbn [res_of fst]. now apply main_loop_done.
  - cbn [app]. rewrite !main_loop_cons by assumption.
    cbn [res_of st_of tr_of fst snd]. rewrite IH.
    destruct (main_loop fs (frame_state f s)) as [[[u | h] s'] t];
      cbn [res_of st_of tr_of fst snd].
    + reflexivity.
    + now rewrite app_assoc.
Qed.

Lemma frame_swaps_once (f : frame_input) (s : state) :
  filter is_swap (tr_of (frame f s)) = [SDL_GL_SwapWindow].
Proof.
  rewrite frame_filter by (intros c Hc; destruct c; easy). reflexivity.
Qed.

(** Every iteration presents one frame: a loop presents as many frames as
    it renders, at most one per recorded poll cycle; all of them while it
    is still running at the end of the input; and at least one when it
    started running and ended, so the iteration that polls the terminating
    event is still rendered and presented. *)
Theorem main_loop_presents_one_frame_per_iteration
    (fs : list frame_input) (s : state) :
  List.length (filter is_swap (tr_of (main_loop fs s)))
  = List.length (filter is_render (tr_of (main_loop fs s)))
  /\ (List.length (filter is_swap (tr_of (main_loop fs s)))
      <= List.length fs)%nat
  /\ (done s = true -> tr_of (main_loop fs s) = [])
  /\ (done s = false -> res_of (main_loop fs s) = Val tt ->
      (1 <= List.length (filter is_swap (tr_of (main_loop fs s))))%nat)
  /\ (res_of (main_loop fs s) = Stop StillRunning ->
      List.length (filter is_swap (tr_of (main_loop fs s)))
      = List.length fs).
Proof.
  revert s. induction fs as [|f fs IH]; intro s;
    destruct (done s) eqn:Hd.
  - rewrite main_loop_done by assumption. cbn. repeat split; auto.
    discriminate.
  - rewrite main_loop_nil by assumption. cbn. repeat split; auto;
      discriminate.
  - rewrite main_loop_done by assumption. cbn. repeat split; auto with arith;
      discriminate.
  - rewrite main_loop_cons by assumption.
    cbn [res_of tr_of fst snd].
    destruct (IH (frame_state f s)) as (H1 & H2 & H3 & H4 & H5).
    rewrite !filter_app, !length_app, frame_swaps_once.
    rewrite (frame_filter is_render) by (intros c Hc; destruct c; easy).
    cbn [filter is_render overlay_calls render_calls blit_calls app
         List.length].
    repeat split.
    + now rewrite H1.
    + lia.
    + discriminate.
    + lia.
    + intro Hres. now rewrite (H5 Hres).
Qed.

(** ** One poll cycle *)

(** A poll cycle always drains the queue: every pending event is polled
    once, in order, then comes the one poll that finds the queue empty and
    ends the cycle; the overlay has been handed all of them, also those
    that follow a terminating event, and a set [done] flag stays set. *)
Theorem poll_cycle_drains_the_queue (q : list SDL_Event) (s : state) :
  filter is_poll (tr_of (poll_events q s))
  = map (fun e => SDL_PollEvent (Some e)) q ++ [SDL_PollEvent None]
  /\ (exists t, tr_of (poll_events q s) = t ++ [SDL_PollEvent None])
  /\ io (st_of (poll_events q s)) = overlay_after (io s) q
  /\ res_of (poll_events q s) = Val tt
  /\ (done s = true -> done (st_of (poll_events q s)) = true).
Proof.
  split; [|split; [|split; [|split]]].
  - revert s. induction q as [|e q IH]; intro s; [reflexivity|].
    rewrite poll_events_cons. cbn [tr_of snd].
    rewrite filter_keep by reflexivity.
    rewrite filter_app, IH, handle_event_eq. cbn [tr_of snd map app].
    rewrite filter_skip by reflexivity. now case_ifs.
  - exists (removelast (tr_of (poll_events q s))).
    revert s. induction q as [|e q IH]; intro s; [reflexivity|].
    rewrite poll_events_cons. cbn [tr_of snd].
    change (SDL_PollEvent (Some e)
            :: tr_of (handle_event e s)
               ++ tr_of (poll_events q (st_of (handle_event e s))))
      with ((SDL_PollEvent (Some e) :: tr_of (handle_event e s))
            ++ tr_of (poll_events q (st_of (handle_event e s)))).
    rewrite removelast_app by apply poll_events_trace_last.
    rewrite <- app_assoc. f_equal. apply IH.
  - apply poll_events_io.
  - apply poll_events_res.
  - intro Hd. apply poll_events_done. now left.
Qed.

Lemma overlay_after_cons (u : ui UI) (a : SDL_Event) (q : list SDL_Event) :
  overlay_after u (a :: q) = overlay_after (ProcessEvent UI u a) q.
Proof. reflexivity. Qed.

Lemma camera_after_cycle (b : bool) (q : list SDL_Event) (s : state) :
  (forall q1 e q2,
     q = q1 ++ e :: q2 ->
     WantCaptureMouse UI (overlay_after (io s) (q1 ++ [e])) = b) ->
  camera (st_of (poll_events q s))
  = if b then camera s else fold_left camera_step q (camera s).
Proof.
  revert s. induction q as [|a q IH]; intros s Hcap.
  - cbn. now destruct b.
  - rewrite poll_events_cons. cbn [st_of fst snd].
    rewrite IH.
    + rewrite handle_event_eq. cbn [st_of fst snd camera io fold_left].
      pose proof (Hcap [] a q eq_refl) as Ha. cbn in Ha. rewrite Ha.
      destruct b; reflexivity.
    + intros q1 e q2 Hq. rewrite handle_event_eq. cbn [st_of fst snd io].
      rewrite <- overlay_after_cons.
      apply (Hcap (a :: q1) e q2). now rewrite Hq.
Qed.

(** What a poll cycle does to the camera.  Events that are neither pointer
    motion nor scroll never move it.  While the overlay captures the mouse
    at every event, the camera stays where it is; while it never does, the
    camera takes one step of [0.016f] per pointer or scroll event, in the
    order of the queue. *)
Theorem camera_after_a_poll_cycle (q : list SDL_Event) (s : state) :
  ((forall e, In e q -> ~ pointer_event e) ->
   camera (st_of (poll_events q s)) = camera s)
  /\ ((forall q1 e q2,
         q = q1 ++ e :: q2 ->
         WantCaptureMouse UI (overlay_after (io s) (q1 ++ [e])) = true) ->
      camera (st_of (poll_events q s)) = camera s)
  /\ ((forall q1 e q2,
         q = q1 ++ e :: q2 ->
         WantCaptureMouse UI (overlay_after (io s) (q1 ++ [e])) = false) ->
      camera (st_of (poll_events q s)) = fold_left camera_step q (camera s)).
Proof.
  split; [|split].
  - revert s. induction q as [|a q IH]; intros s Hnone; [reflexivity|].
    rewrite poll_events_cons. cbn [st_of fst snd].
    rewrite IH by (intros e He; apply Hnone; now right).
    rewrite handle_event_eq. cbn [st_of fst snd camera].
    assert (Ha : (type a =? SDL_MOUSEMOTION) || (type a =? SDL_MOUSEWHEEL)
                 = false).
    { apply not_true_is_false. intro Hp. apply (Hnone a); [now left|].
      unfold pointer_event.
      apply orb_true_iff in Hp as [Hp | Hp]; apply Z.eqb_eq in Hp; auto. }
    rewrite Ha, andb_false_r. reflexivity.
  - apply (camera_after_cycle true).
  - apply (camera_after_cycle false).
Qed.

(** The frame of an iteration is rendered from the camera as the events of
    that iteration left it: its position, direction and up vector are set
    and the camera and the renderer committed, in this order, before the
    one render call; drawing the frame does not move the camera. *)
Theorem frame_renders_the_camera_its_events_left
    (f : frame_input) (s : state) :
  filter is_camera_or_render (tr_of (frame f s))
  = [ospSet3fv osp_camera "pos"
       (eye_pos CAM (camera (st_of (poll_events (pending f) s))));
     ospSet3fv osp_camera "dir"
       (eye_dir CAM (camera (st_of (poll_events (pending f) s))));
     ospSet3fv osp_camera "up"
       (up_dir CAM (camera (st_of (poll_events (pending f) s))));
     ospCommit osp_camera;
     ospSetObject renderer "camera" osp_camera;
     ospCommit renderer;
     ospRenderFrame osp_fb renderer "OSP_FB_COLOR"]
  /\ camera (st_of (frame f s)) = camera (st_of (poll_events (pending f) s))
  /\ io (st_of (frame f s))
     = NewFrame UI (overlay_after (io s) (pending f)).
Proof.
  split; [|split].
  - rewrite frame_filter by (intros c Hc; destruct c; easy). reflexivity.
  - rewrite frame_eq. reflexivity.
  - rewrite frame_eq. cbn [st_of fst snd]. unfold frame_state.
    cbn [io]. now rewrite poll_events_io.
Qed.

(** ** Geometry of an arbitrary model *)

Lemma setup_new_data (inv : invocation) :
  filter is_new_data (setup_calls inv)
  = [ospNewData verts_data
       (List.length
          (vertices (attrib (LoadObj_result env (argv_at inv 1)))) / 3)%nat
       "OSP_FLOAT3"
       (float_array (vertices (attrib (LoadObj_result env (argv_at inv 1)))));
     ospNewData indices_data
       (List.length
          (all_indices (shapes (LoadObj_result env (argv_at inv 1)))) / 3)%nat
       "OSP_INT3"
       (int_array
          (all_indices (shapes (LoadObj_result env (argv_at inv 1)))))].
Proof.
  unfold setup_calls. rewrite !filter_app.
  rewrite filter_load_calls, filter_shape_lines by reflexivity.
  rewrite (filter_none _ startup_calls) by reflexivity.
  rewrite filter_skip by reflexivity. rewrite !filter_app.
  rewrite (filter_none _ (renderer_calls _)) by reflexivity.
  rewrite (filter_none _ display_calls) by reflexivity.
  unfold geometry_calls. rewrite filter_keep by reflexivity.
  rewrite filter_skip by reflexivity.
  rewrite filter_keep by reflexivity.
  rewrite (filter_none _ (_ :: _)) by reflexivity.
  reflexivity.
Qed.

Lemma all_indices_total_length (ss : list shape_t) :
  List.length (all_indices ss)
  = list_sum (map (fun sh => List.length (indices (mesh sh))) ss).
Proof.
  unfold all_indices. induction ss as [|sh ss IH]; [reflexivity|].
  cbn [map List.concat]. rewrite length_app, length_map, IH. reflexivity.
Qed.

Lemma announced_triangles_fit (ss : list shape_t) :
  (3 * total_triangles ss <= List.length (all_indices ss))%nat.
Proof.
  rewrite all_indices_total_length. unfold total_triangles.
  induction ss as [|sh ss IH]; [cbn; lia|].
  change (list_sum (map triangle_count (sh :: ss)))
    with (triangle_count sh + list_sum (map triangle_count ss))%nat.
  change (list_sum (map (fun sh => List.length (indices (mesh sh)))
                      (sh :: ss)))
    with (List.length (indices (mesh sh))
          + list_sum (map (fun sh => List.length (indices (mesh sh))) ss))%nat.
  unfold triangle_count at 1.
  pose proof (Nat.Div0.mul_div_le (List.length (indices (mesh sh))) 3).
  lia.
Qed.

(** Whatever the loader returns on a successful load, also faces that are
    not triangles, is handed over as it is: the index array is the
    concatenation of all vertex indices, negative or out of range ones
    included, its item count the total number of indices divided by 3
    rounded down, so at most two trailing indices are left out and the
    triples may straddle two shapes; the count is never below the sum of
    the triangle counts printed per shape.  Likewise at most two trailing
    floats of the vertex sequence are left out. *)
Theorem geometry_of_any_loaded_model
    (inv : invocation) (Hup : starts_up inv) :
  let f := LoadObj_result env (argv_at inv 1) in
  let idx := all_indices (shapes f) in
  let verts := vertices (attrib f) in
  filter is_new_data (trace inv)
  = [ospNewData verts_data (List.length verts / 3)%nat "OSP_FLOAT3"
       (float_array verts);
     ospNewData indices_data (List.length idx / 3)%nat "OSP_INT3"
       (int_array idx)]
  /\ List.length idx
     = list_sum (map (fun sh => List.length (indices (mesh sh))) (shapes f))
  /\ (total_triangles (shapes f) <= List.length idx / 3)%nat
  /\ (3 * (List.length idx / 3) <= List.length idx
      < 3 * (List.length idx / 3) + 3)%nat
  /\ (3 * (List.length verts / 3) <= List.length verts
      < 3 * (List.length verts / 3) + 3)%nat.
Proof.
  intros f idx verts. unfold trace. rewrite (run_started inv Hup).
  cbn [snd]. split; [|split; [|split; [|split]]].
  - rewrite !filter_app, setup_new_data.
    rewrite main_loop_filter_nil
      by (intros c Hc; destruct c; try reflexivity; discriminate).
    rewrite filter_after_loop by reflexivity. reflexivity.
  - apply all_indices_total_length.
  - apply Nat.div_le_lower_bound; [discriminate|].
    apply announced_triangles_fit.
  - pose proof (Nat.div_mod_eq (List.length idx) 3).
    pose proof (Nat.mod_upper_bound (List.length idx) 3). lia.
  - pose proof (Nat.div_mod_eq (List.length verts) 3).
    pose proof (Nat.mod_upper_bound (List.length verts) 3). lia.
Qed.

(** ** No retry *)

Lemma setup_initialisations (inv : invocation) :
  filter is_initialisation (setup_calls inv)
  = [SDL_Init "SDL_INIT_EVERYTHING"; ogl_LoadFunctions;
     tinyobj_LoadObj (argv_at inv 1); ospInit].
Proof.
  unfold setup_calls. rewrite !filter_app.
  rewrite filter_shape_lines by reflexivity.
  rewrite filter_keep by reflexivity. rewrite !filter_app.
  rewrite (filter_none _ (geometry_calls _ _)) by reflexivity.
  rewrite (filter_none _ (renderer_calls _)) by reflexivity.
  rewrite (filter_none _ display_calls) by reflexivity.
  replace (filter is_initialisation (load_calls inv))
    with [tinyobj_LoadObj (argv_at inv 1)]
    by (unfold load_calls; now case_ifs).
  reflexivity.
Qed.

(** Nothing is tried twice: in every run SDL, the GL loader, the model
    load and OSPRay are initialised at most once each and in this order, a
    later one only after the earlier ones were called, and the loop never
    initialises anything. *)
Theorem every_initialisation_is_attempted_at_most_once (inv : invocation) :
  exists k,
    filter is_initialisation (trace inv)
    = firstn k [SDL_Init "SDL_INIT_EVERYTHING"; ogl_LoadFunctions;
                tinyobj_LoadObj (argv_at inv 1); ospInit].
Proof.
  unfold trace.
  destruct (starts_up_dec inv) as [Hup | Hno].
  - rewrite (run_started inv Hup). cbn [snd]. exists 4%nat.
    rewrite !filter_app, setup_initialisations.
    rewrite main_loop_filter_nil
      by (intros c Hc; destruct c; try reflexivity; discriminate).
    rewrite filter_after_loop by reflexivity. reflexivity.
  - destruct (run_not_started inv Hno)
      as (before & rest & st & text & r & Hsetup & Hrun & _).
    rewrite Hrun. cbn [snd].
    pose proof (setup_initialisations inv) as Hinit.
    rewrite Hsetup, filter_app in Hinit.
    exists (List.length (filter is_initialisation before)).
    rewrite filter_app, (filter_none _ [Print st text]) by reflexivity.
    rewrite app_nil_r, <- Hinit. symmetry. apply firstn_length_app.
Qed.

End Program.

Arguments io {UI CAM} s.
Arguments camera {UI CAM} s.
Arguments done {UI CAM} s.
Arguments res_of {UI CAM A} x.
Arguments st_of {UI CAM A} x.
Arguments tr_of {UI CAM A} x.

(** ** The time step does not depend on the frame rate *)

Section FrameRate.

Variable UI : UIOverlay.
Variable CAM : CameraModel.
Variable FP : FloatOps.
Variable env : environment.
Variable rate : ui UI -> f32.

Abbreviation UI' := (with_framerate UI rate).

(** The state of the run under the other frame rate: the same overlay,
    camera and flag. *)
Abbreviation retimed s := (mk_state UI' CAM (io s) (camera s) (done s)).

Lemma handle_event_retimed (e : SDL_Event) (s : state UI CAM) :
  handle_event UI' CAM env e (retimed s)
  = (Val tt,
     retimed (st_of (handle_event UI CAM env e s)),
     tr_of (handle_event UI CAM env e s)).
Proof. rewrite !handle_event_eq. reflexivity. Qed.

Lemma poll_events_retimed (q : list SDL_Event) (s : state UI CAM) :
  poll_events UI' CAM env q (retimed s)
  = (Val tt,
     retimed (st_of (poll_events UI CAM env q s)),
     tr_of (poll_events UI CAM env q s)).
Proof.
  revert s. induction q as [|e q IH]; intro s.
  - reflexivity.
  - rewrite !poll_events_cons, handle_event_retimed.
    cbn [st_of tr_of res_of fst snd]. rewrite IH. reflexivity.
Qed.

Lemma frame_retimed (f : frame_input) (s : state UI CAM) :
  st_of (frame UI' CAM FP env f (retimed s))
  = retimed (st_of (frame UI CAM FP env f s))
  /\ filter is_camera_mouse (tr_of (frame UI' CAM FP env f (retimed s)))
     = filter is_camera_mouse (tr_of (frame UI CAM FP env f s)).
Proof.
  rewrite !frame_eq. unfold frame_state. rewrite poll_events_retimed.
  cbn [st_of tr_of fst snd io camera done]. split; [reflexivity|].
  rewrite !filter_app. reflexivity.
Qed.

Lemma main_loop_retimed (fs : list frame_input) (s : state UI CAM) :
  filter is_camera_mouse (tr_of (main_loop UI' CAM FP env fs (retimed s)))
  = filter is_camera_mouse (tr_of (main_loop UI CAM FP env fs s)).
Proof.
  revert s. induction fs as [|f fs IH]; intro s;
    destruct (Bool.bool_dec (done s) true) as [Hd | Hd];
    try apply not_true_is_false in Hd.
  - now rewrite !main_loop_done by exact Hd.
  - now rewrite !main_loop_nil by exact Hd.
  - now rewrite !main_loop_done by exact Hd.
  - rewrite !main_loop_cons by exact Hd. cbn [tr_of snd].
    rewrite !filter_app.
    destruct (frame_retimed f s) as [Hst Htr]. rewrite Htr. f_equal.
    rewrite !frame_eq in Hst. cbn [st_of fst snd] in Hst.
    rewrite Hst. apply IH.
Qed.

Lemma camera_calls_retimed (inv : invocation) :
  filter is_camera_mouse (trace UI' CAM FP env inv)
  = filter is_camera_mouse (trace UI CAM FP env inv).
Proof.
  unfold trace. rewrite !run_eq.
  destruct (argc inv <? 2); [reflexivity|].
  destruct (negb (SDL_Init_result env =? 0)); [reflexivity|].
  destruct (ogl_LoadFunctions_result env =? ogl_LOAD_FAILED); [reflexivity|].
  cbv zeta.
  destruct (negb (err (LoadObj_result env (argv_at inv 1)) =? "")%string);
    [reflexivity|].
  destruct (negb (ret (LoadObj_result env (argv_at inv 1))));
    [reflexivity|].
  destruct (negb (ospInit_result env =? OSP_NO_ERROR)); [reflexivity|].
  cbn [snd]. rewrite !filter_app.
  rewrite !filter_skip by reflexivity. rewrite !filter_app.
  rewrite !(filter_none _ (renderer_calls _ _ _)) by reflexivity.
  rewrite !filter_after_loop by reflexivity.
  change (init_state UI' CAM) with (retimed (init_state UI CAM)).
  rewrite main_loop_retimed. reflexivity.
Qed.

(** C9. Every call of the camera's mouse handler, in every run, is given
    the time step [0.016f]: the binary32 number nearest to 0.016.  The
    camera is moved with that step or not at all, and the handler calls of
    a run are the same whatever frame rate the overlay measures. *)
Theorem C9_camera_time_step_is_the_constant_0_016
    (inv : invocation) (e : SDL_Event) (s : state UI CAM) :
  (forall e' dt,
     In (ArcballCamera_mouse e' dt) (trace UI CAM FP env inv) ->
     dt = lit_0_016f)
  /\ (camera (st_of (handle_event UI CAM env e s)) = camera s
      \/ camera (st_of (handle_event UI CAM env e s))
         = mouse CAM (camera s) e lit_0_016f)
  /\ filter is_camera_mouse (trace UI' CAM FP env inv)
     = filter is_camera_mouse (trace UI CAM FP env inv)
  /\ ((16 # 1000) - (1 # 2 ^ 30) < f32_value lit_0_016f)%Q
  /\ (f32_value lit_0_016f < (16 # 1000) + (1 # 2 ^ 30))%Q.
Proof.
  split; [|split; [|split; [|split]]].
  - intros e' dt. apply camera_calls_use_the_literal.
  - rewrite handle_event_eq. cbn [st_of fst snd camera].
    case_ifs; auto.
  - apply camera_calls_retimed.
  - reflexivity.
  - reflexivity.
Qed.

End FrameRate.

(** ** The OptiX backend's render call *)

(** C1. A [render] call with [camera_changed] false leaves the
    camera-dependent launch parameters of the backend as they were and
    uploads nothing, whatever camera it is given; so of two consecutive
    calls with the same camera, the second with [camera_changed] false,
    the second changes neither.  It still advances the frame counter. *)
Theorem C1_render_without_camera_change_keeps_launch_parameters
    (r : RenderOptiX.t) (pos dir up : vec3) (fovy : f32)
    (first_changed : bool) (t1 t2 : Q) :
  let after_first :=
    snd (RenderOptiX.render t1 r pos dir up fovy first_changed) in
  let after_second :=
    snd (RenderOptiX.render t2 after_first pos dir up fovy false) in
  RenderOptiX.launch_params after_second
  = RenderOptiX.launch_params after_first
  /\ RenderOptiX.uploads after_second = RenderOptiX.uploads after_first
  /\ RenderOptiX.frame_id after_second
     = (RenderOptiX.frame_id after_first + 1) mod 2 ^ 32
  /\ (forall pos' dir' up' fovy' t,
        let r' := snd (RenderOptiX.render t r pos' dir' up' fovy' false) in
        RenderOptiX.launch_params r' = RenderOptiX.launch_params r
        /\ RenderOptiX.uploads r' = RenderOptiX.uploads r)
  /\ (forall t,
        let r' := snd (RenderOptiX.render t r pos dir up fovy true) in
        RenderOptiX.launch_params r'
        = Some (RenderOptiX.mk_view pos dir up fovy)
        /\ RenderOptiX.uploads r' = S (RenderOptiX.uploads r)).
Proof. cbn. repeat split. Qed.

(** The loop of [main.cpp] has no such flag: every iteration sets the
    three camera vectors and commits the camera and the renderer. *)
Lemma main_cpp_sends_the_camera_every_iteration
    (UI : UIOverlay) (CAM : CameraModel) (FP : FloatOps) (env : environment)
    (f : frame_input) (s : state UI CAM) :
  exists before after,
    tr_of (frame UI CAM FP env f s)
    = before ++ render_calls UI CAM (frame_state UI CAM env f s) ++ after.
Proof.
  rewrite frame_eq. cbn [tr_of snd].
  exists (snd (poll_events UI CAM env (pending f) s)
          ++ [ImGui_ImplOpenGL3_NewFrame; ImGui_ImplSDL2_NewFrame;
              ImGui_NewFrame]
          ++ overlay_calls UI CAM FP (frame_state UI CAM env f s)),
    (ospMapFrameBuffer osp_fb "OSP_FB_COLOR" (fb_pointer f)
     :: blit_calls (fb_pointer f)).
  rewrite <- !app_assoc. reflexivity.
Qed.

(** ** Runs of the sample instance *)

Lemma C2_witness :
  let t := trace Sample.UI Sample.CAM Sample.FP (Sample.env []) Sample.viewer in
  filter is_new_data t
  = [ospNewData verts_data 5 "OSP_FLOAT3"
       (float_array [0; 0; 0; 1; 0; 0; 1; 1; 0; 0; 1; 0; 2; 2; 2]);
     ospNewData indices_data 3 "OSP_INT3"
       (int_array [0; 1; 2; 0; 1; 2; 0; 2; 3])]
  /\ List.length (all_indices (shapes Sample.two_shapes)) = 9%nat.
Proof.
  destruct (C2_index_buffer_is_concatenation_of_3N_and_vertex_count
              Sample.UI Sample.CAM Sample.FP (Sample.env []) Sample.viewer
              Sample.two_shapes)
    as (Hdata & Hlen & _).
  - vm_compute. discriminate.
  - reflexivity.
  - vm_compute. discriminate.
  - reflexivity.
  - reflexivity.
  - reflexivity.
  - reflexivity.
  - repeat constructor.
  - split; [exact Hdata | exact Hlen].
Defined.

Lemma C3_witness :
  let f := mk_frame [Sample.motion_event; Sample.escape_event] 4096 in
  let s := init_state Sample.UI Sample.CAM in
  app_state_of Sample.UI Sample.CAM s = RUNNING
  /\ main_loop Sample.UI Sample.CAM Sample.FP (Sample.env []) [f] s
     = (Val tt,
        st_of (frame Sample.UI Sample.CAM Sample.FP (Sample.env []) f s),
        tr_of (frame Sample.UI Sample.CAM Sample.FP (Sample.env []) f s)).
Proof.
  intros f s. split; [reflexivity|].
  destruct (C3_loop_terminates_exactly_on_quit_escape_close
              Sample.UI Sample.CAM Sample.FP (Sample.env []) f [] s eq_refl)
    as (_ & _ & _ & Hlast & _).
  apply Hlast. reflexivity.
Defined.

Lemma C4_witness :
  argc (mk_invocation "rtobj" []) < 2
  /\ trace Sample.UI Sample.CAM Sample.FP (Sample.env [])
       (mk_invocation "rtobj" [])
     = [Print cout ("Usage: rtobj <obj file>" +++ nl)]
  /\ exit_status
       (outcome Sample.UI Sample.CAM Sample.FP (Sample.env [])
          (mk_invocation "rtobj" []))
     = Some 1.
Proof.
  assert (Hargc : argc (mk_invocation "rtobj" []) < 2) by reflexivity.
  destruct (C4_missing_argument_prints_usage_and_exits_1
              Sample.UI Sample.CAM Sample.FP (Sample.env [])
              (mk_invocation "rtobj" []) Hargc)
    as (_ & Hstatus & Htrace & _).
  split; [exact Hargc|]. split; [exact Htrace | exact Hstatus].
Defined.


Lemma C6_witness :
  ospInit_result Sample.env_ospray_fails <> OSP_NO_ERROR
  /\ outcome Sample.UI Sample.CAM Sample.FP Sample.env_ospray_fails
       Sample.viewer
     = Stop (Uncaught "Failed to init OSPRay")
  /\ In (Print cout ("Failed to init OSPRay" +++ nl))
       (trace Sample.UI Sample.CAM Sample.FP Sample.env_ospray_fails
          Sample.viewer)
  /\ filter is_stderr
       (trace Sample.UI Sample.CAM Sample.FP Sample.env_ospray_fails
          Sample.viewer)
     = [].
Proof.
  assert (Hargc : 2 <= argc Sample.viewer) by (vm_compute; discriminate).
  assert (Hosp : ospInit_result Sample.env_ospray_fails <> OSP_NO_ERROR)
    by (vm_compute; discriminate).
  assert (Hogl : ogl_LoadFunctions_result Sample.env_ospray_fails
                 <> ogl_LOAD_FAILED)
    by (vm_compute; discriminate).
  destruct (C6_ospray_init_failure_is_written_to_stdout
              Sample.UI Sample.CAM Sample.FP Sample.env_ospray_fails
              Sample.viewer Hargc eq_refl Hogl eq_refl eq_refl Hosp)
    as (Hout & _ & Hprint & Hquiet & _).
  split; [exact Hosp|]. split; [exact Hout|].
  split; [exact Hprint | exact Hquiet].
Defined.

(** Escape pressed while the overlay holds the keyboard does not end the
    loop; the same key after the overlay let go does. *)
Example escape_with_overlay_focus_keeps_running :
  outcome Sample.UI Sample.CAM Sample.FP
    (Sample.env [mk_frame [Sample.ev 0x401; Sample.escape_event] 4096])
    Sample.viewer
  = Stop StillRunning
  /\ outcome Sample.UI Sample.CAM Sample.FP
       (Sample.env [mk_frame [Sample.ev 0x401; Sample.escape_event] 4096;
                    mk_frame [Sample.ev 0x402; Sample.escape_event] 8192])
       Sample.viewer
     = Val 0.
Proof. split; reflexivity. Qed.

(** A close signal for another window is ignored, one for the
    application's window (id 7 in the sample) ends the loop. *)
Example close_of_own_window_only :
  outcome Sample.UI Sample.CAM Sample.FP
    (Sample.env [mk_frame [Sample.close_event 8] 4096]) Sample.viewer
  = Stop StillRunning
  /\ outcome Sample.UI Sample.CAM Sample.FP
       (Sample.env [mk_frame [Sample.close_event 7] 4096]) Sample.viewer
     = Val 0.
Proof. split; reflexivity. Qed.

(** Resizing the window between two frames allocates nothing. *)
Example resize_allocates_nothing :
  filter is_allocation
    (trace Sample.UI Sample.CAM Sample.FP
       (Sample.env [mk_frame [] 4096;
                    mk_frame [Sample.resize_event 7] 4096;
                    mk_frame [Sample.quit_event] 4096])
       Sample.viewer)
  = allocations.
Proof. reflexivity. Qed.

(** The camera is called for motion and wheel events only while the
    overlay does not capture the mouse. *)
Example camera_calls_of_a_cycle :
  filter is_camera_mouse
    (trace Sample.UI Sample.CAM Sample.FP
       (Sample.env [mk_frame [Sample.motion_event; Sample.ev 0x401;
                              Sample.wheel_event; Sample.ev 0x402;
                              Sample.wheel_event; Sample.quit_event] 4096])
       Sample.viewer)
  = [ArcballCamera_mouse Sample.motion_event lit_0_016f;
     ArcballCamera_mouse Sample.wheel_event lit_0_016f].
Proof. reflexivity. Qed.

(** The other float literals decode to the numbers written in the source. *)
Example float_literals :
  (f32_value lit_100f == 100)%Q
  /\ (f32_value lit_65f == 65)%Q
  /\ (f32_value lit_1000f == 1000)%Q
  /\ ((16 # 9) - (1 # 2 ^ 24) < f32_value lit_1280f_div_720f)%Q
  /\ (f32_value lit_1280f_div_720f < (16 # 9) + (1 # 2 ^ 24))%Q.
Proof. repeat split; vm_compute; reflexivity. Qed.

(** ** Further runs of the sample instance *)

Lemma load_failure_witness :
  2 <= argc Sample.viewer
  /\ outcome Sample.UI Sample.CAM Sample.FP
       (Sample.env_loader Sample.unreadable) Sample.viewer
     = Stop (Exit 1)
  /\ filter is_ospray
       (trace Sample.UI Sample.CAM Sample.FP
          (Sample.env_loader Sample.unreadable) Sample.viewer)
     = []
  /\ filter is_window_creation
       (trace Sample.UI Sample.CAM Sample.FP
          (Sample.env_loader Sample.unreadable) Sample.viewer)
     = [SDL_CreateWindow "rtobj" "SDL_WINDOWPOS_CENTERED"
          "SDL_WINDOWPOS_CENTERED" 1280 720
          "SDL_WINDOW_OPENGL | SDL_WINDOW_RESIZABLE"].
Proof.
  assert (Hargc : 2 <= argc Sample.viewer) by (vm_compute; discriminate).
  assert (Hogl : ogl_LoadFunctions_result
                   (Sample.env_loader Sample.unreadable)
                 <> ogl_LOAD_FAILED)
    by (vm_compute; discriminate).
  assert (Hfail :
    err (LoadObj_result (Sample.env_loader Sample.unreadable)
           (argv_at Sample.viewer 1)) <> ""
    \/ ret (LoadObj_result (Sample.env_loader Sample.unreadable)
              (argv_at Sample.viewer 1)) = false)
    by (right; reflexivity).
  destruct (load_failure_comes_after_the_window_and_before_ospray
              Sample.UI Sample.CAM Sample.FP
              (Sample.env_loader Sample.unreadable) Sample.viewer
              Hargc eq_refl Hogl Hfail)
    as (Hout & Hwin & Hosp & _).
  split; [exact Hargc|]. split; [exact Hout|].
  split; [exact Hosp | exact Hwin].
Defined.

Lemma geometry_witness :
  starts_up (Sample.env_loader Sample.ragged_shapes) Sample.viewer
  /\ filter is_new_data
       (trace Sample.UI Sample.CAM Sample.FP
          (Sample.env_loader Sample.ragged_shapes) Sample.viewer)
     = [ospNewData verts_data 6 "OSP_FLOAT3"
          (float_array
             [0; 0; 0; 1; 0; 0; 1; 1; 0; 0; 1; 0; 2; 2; 2; 3; 3; 3; 4]);
        ospNewData indices_data 3 "OSP_INT3"
          (int_array [0; 1; 2; 3; 0; 1; 2; 4; 5])]
  /\ total_triangles (shapes Sample.ragged_shapes) = 2%nat.
Proof.
  assert (Hup : starts_up (Sample.env_loader Sample.ragged_shapes)
                  Sample.viewer).
  { unfold starts_up. repeat split; try reflexivity;
      vm_compute; discriminate. }
  destruct (geometry_of_any_loaded_model
              Sample.UI Sample.CAM Sample.FP
              (Sample.env_loader Sample.ragged_shapes) Sample.viewer Hup)
    as (Hdata & _).
  split; [exact Hup|]. split; [exact Hdata | reflexivity].
Defined.

Lemma SDL_failure_witness :
  2 <= argc Sample.viewer
  /\ trace Sample.UI Sample.CAM Sample.FP
       (mk_env 1 "No available video device" 1 (fun _ => Sample.two_shapes)
          OSP_NO_ERROR 7 [])
       Sample.viewer
     = [SDL_Init "SDL_INIT_EVERYTHING";
        Print cerr
          ("Failed to init SDL: No available video device" +++ nl)]
  /\ exit_status
       (outcome Sample.UI Sample.CAM Sample.FP
          (mk_env 1 "No available video device" 1
             (fun _ => Sample.two_shapes) OSP_NO_ERROR 7 [])
          Sample.viewer)
     = Some 255.
Proof.
  assert (Hargc : 2 <= argc Sample.viewer) by (vm_compute; discriminate).
  destruct (SDL_and_OpenGL_failures_go_to_stderr
              Sample.UI Sample.CAM Sample.FP
              (mk_env 1 "No available video device" 1
                 (fun _ => Sample.two_shapes) OSP_NO_ERROR 7 [])
              Sample.viewer Hargc)
    as (Hsdl & _).
  destruct Hsdl as (_ & Hstatus & Htrace); [discriminate|].
  split; [exact Hargc|]. split; [exact Htrace | exact Hstatus].
Defined.

